(** * requirejs-fingerprint: the [load] hook of the plugin

    The development follows [fingerprint.js], version 1.0.3: the module body
    that reads [module.config()] once, and the [load] function it returns.
    Line numbers are those of that file.

    Conventions of the embedding:
    - a string is a sequence of code units below 256;
    - a plain object is a finite map of its own properties, and a read of
      a property goes on to what [Object.prototype] gives every plain
      object ([constructor], [toString] and so on);
    - [undefined] is the [None] of an [option];
    - [config.map] and its wildcard bucket are dictionaries, written under
      any name alike (an assignment to the name [__proto__], which the
      engine drops, is not told apart);
    - the values of a configuration are strings, arrays of strings and
      plain objects: [null], numbers and booleans are not values of the
      model, nor are the properties of strings, arrays and functions;
    - the extensions are matched as words: an extension with an operator
      of the regular expression language ([.], [(], [*] ...) is outside
      the matcher of the model, and the statements about it say so;
    - the calls [load] makes on its arguments ([req.specified], [req.defined],
      [req.toUrl], [req] itself, [onLoad]) are the events of a trace, and the
      [config] object is a state it reads and writes.

    The file has the embedding first, then the definitions the statements
    use, then the lemmas, then one section per claim C1 to C10, then the
    further properties of the code. *)

From Stdlib Require Import ZArith Ascii String List Bool Lia DecimalString.
From stdpp Require Import base option gmap strings list fin_maps.

Local Open Scope string_scope.

(** ** JavaScript values found in the configuration *)

Module Js.

(** A configuration value: a string, an array of strings
    ([options.extensions]) or a plain object; and, for what a plain object
    inherits, a built-in function, known by its name.  [undefined] is the
    [None] of [option jsval]. *)
#[warnings="-register-all"]
Inductive jsval : Type :=
| VStr (s : string)
| VArr (l : list string)
| VObj (o : gmap string jsval)
| VNative (name : string).

(** [Array.prototype.join]. *)
Fixpoint join (sep : string) (l : list string) : string :=
  match l with
  | [] => ""
  | [x] => x
  | x :: rest => x +:+ sep +:+ join sep rest
  end.

(** [ToString] on a configuration value.  The text of a built-in function
    is the one V8 gives; the standard fixes its shape and leaves the white
    space to the engine. *)
Definition to_string (v : jsval) : string :=
  match v with
  | VStr s => s
  | VArr l => join "," l
  | VObj _ => "[object Object]"
  | VNative name => "function " +:+ name +:+ "() { [native code] }"
  end.

(** [ToBoolean]: the only falsy values of the model are [undefined] and
    the empty string. *)
Definition truthy (v : option jsval) : bool :=
  match v with
  | None => false
  | Some (VStr "") => false
  | Some _ => true
  end.

(** [a || b]. *)
Definition or_else (a b : option jsval) : option jsval :=
  if truthy a then a else b.

(** The functions every plain object inherits from [Object.prototype],
    [constructor] and the accessor [__proto__] apart. *)
Definition object_prototype_functions : list string :=
  ["hasOwnProperty"; "isPrototypeOf"; "propertyIsEnumerable";
   "toLocaleString"; "toString"; "valueOf";
   "__defineGetter__"; "__defineSetter__";
   "__lookupGetter__"; "__lookupSetter__"].

(** What a plain object without an own property [k] yields for [k]:
    [constructor] is the function [Object], [__proto__] the prototype
    itself, an object without own properties to enumerate. *)
Definition inherited (k : string) : option jsval :=
  if String.eqb k "constructor" then Some (VNative "Object")
  else if String.eqb k "__proto__" then Some (VObj ∅)
  else if existsb (String.eqb k) object_prototype_functions
  then Some (VNative k)
  else None.

(** The own property [k] of a plain object. *)
Definition own (v : jsval) (k : string) : option jsval :=
  match v with
  | VObj o => o !! k
  | _ => None
  end.

(** Property read [v[k]] on a plain object: the own property, else the
    inherited one.  The properties of strings, arrays and functions are
    not modelled: the plugin reads names off objects. *)
Definition get (v : jsval) (k : string) : option jsval :=
  match v with
  | VObj o =>
      match inherited k with
      | None => o !! k
      | Some w => Some (default w (o !! k))
      end
  | _ => None
  end.

(** [typeof v === 'object'] and [typeof v === 'string']. *)
Definition is_object (v : jsval) : bool :=
  match v with VArr _ | VObj _ => true | _ => false end.

Definition is_string (v : jsval) : bool :=
  match v with VStr _ => true | _ => false end.

End Js.

(** ** String primitives used by the plugin *)

Module Str.

(** [s.indexOf(c) !== -1] for a one-character needle. *)
Fixpoint contains (c : ascii) (s : string) : bool :=
  match s with
  | EmptyString => false
  | String d rest => if Ascii.eqb c d then true else contains c rest
  end.

(** The canonical form of a code unit under the [i] flag of a regular
    expression without the [u] flag: its upper case when that is a single
    code unit of the same range.  Below 256 this moves [a-z] and the
    accented lower case letters (224-254, the division sign 247 apart) down
    by 32 and leaves every other code unit alone. *)
Definition canonicalize (c : ascii) : ascii :=
  let n := nat_of_ascii c in
  if ((97 <=? n)%nat && (n <=? 122)%nat)
     || ((224 <=? n)%nat && (n <=? 254)%nat && negb (n =? 247)%nat)
  then ascii_of_nat (n - 32) else c.

(** Equality of two strings up to [canonicalize]. *)
Fixpoint ci_eqb (a b : string) : bool :=
  match a, b with
  | EmptyString, EmptyString => true
  | String x a', String y b' =>
      Ascii.eqb (canonicalize x) (canonicalize y) && ci_eqb a' b'
  | _, _ => false
  end.

(** [s.split(c)] for a one-character separator. *)
Fixpoint split (c : ascii) (s : string) : list string :=
  match s with
  | EmptyString => [""]
  | String d rest =>
      if Ascii.eqb c d then "" :: split c rest
      else match split c rest with
           | [] => [String d ""]
           | w :: ws => String d w :: ws
           end
  end.

(** [s.replace(/^\.\//, '')]: one leading "./" is removed. *)
Definition strip_dot_slash (s : string) : string :=
  match s with
  | String "." (String "/" rest) => rest
  | _ => s
  end.

End Str.

(** ** The extension test

    [new RegExp('\\.(' + options.extensions.join('|') + ')$', 'gi')].  The
    expression is kept as the text between the parentheses; its alternatives
    are read as literal words, as the built-in [js], [css] and [json] are
    (an extension holding other regular-expression operators is outside the
    model). *)

Module Ext.

Definition alternatives (source : string) : list string :=
  Str.split "|" source.

(** The leftmost match of the expression in [url]: the text before the dot and
    the text captured by the group, [None] when [url.match] yields [null].
    The match is anchored at the end of the input, so it is the only one the
    [g] flag can find. *)
Fixpoint exec (source : string) (url : string) : option (string * string) :=
  match url with
  | EmptyString => None
  | String c rest =>
      if Ascii.eqb c "." && existsb (Str.ci_eqb rest) (alternatives source)
      then Some ("", rest)
      else match exec source rest with
           | Some (before, ext) => Some (String c before, ext)
           | None => None
           end
  end.

(** [url.replace(extensionRegex, replacement + '.$1')] where [replacement]
    holds no dollar sign. *)
Definition replace (source url replacement : string) : string :=
  match exec source url with
  | Some (before, ext) => before +:+ replacement +:+ "." +:+ ext
  | None => url
  end.

End Ext.

(** ** Numbers: what [+fingerprint + '.$1'] puts into the replacement

    The unary plus converts its operand to a Number (an IEEE 754 double) and
    the concatenation converts that Number back to text.  Both conversions
    are carried out exactly, on integers: a double is kept as [m * 2^e]. *)

Module Num.

Local Open Scope Z_scope.

Inductive number : Type :=
| NaN
| Infinity (negative : bool)
| Zero
| Finite (negative : bool) (m e : Z).

(** *** StringToNumber *)

(** White space and line terminators below 256. *)
Definition is_space (c : ascii) : bool :=
  let n := Z.of_nat (nat_of_ascii c) in
  ((9 <=? n) && (n <=? 13)) || (n =? 32) || (n =? 160).

Fixpoint trim_left (l : list ascii) : list ascii :=
  match l with
  | c :: rest => if is_space c then trim_left rest else l
  | [] => []
  end.

Definition trim (l : list ascii) : list ascii :=
  rev (trim_left (rev (trim_left l))).

(** The value of a digit in bases up to sixteen. *)
Definition digit (c : ascii) : option Z :=
  let n := Z.of_nat (nat_of_ascii c) in
  if (48 <=? n) && (n <=? 57) then Some (n - 48)
  else if (97 <=? n) && (n <=? 102) then Some (n - 87)
  else if (65 <=? n) && (n <=? 70) then Some (n - 55)
  else None.

Definition is_digit (base : Z) (c : ascii) : bool :=
  match digit c with
  | Some d => d <? base
  | None => false
  end.

Fixpoint digits_value (base acc : Z) (l : list ascii) : Z :=
  match l with
  | [] => acc
  | c :: rest => digits_value base (acc * base + default 0 (digit c)) rest
  end.

(** The longest prefix of digits and what follows it. *)
Fixpoint span_digits (base : Z) (l : list ascii) : list ascii * list ascii :=
  match l with
  | c :: rest =>
      if is_digit base c
      then let '(ds, tl) := span_digits base rest in (c :: ds, tl)
      else ([], l)
  | [] => ([], [])
  end.

(** A literal made of digits in [base] only, and at least one of them. *)
Definition integer_literal (base : Z) (l : list ascii) : option Z :=
  match span_digits base l with
  | ((_ :: _) as ds, []) => Some (digits_value base 0 ds)
  | _ => None
  end.

(** ExponentPart, or nothing: the decimal exponent. *)
Definition exponent_part (l : list ascii) : option Z :=
  match l with
  | [] => Some 0
  | c :: rest =>
      if Ascii.eqb c "e" || Ascii.eqb c "E" then
        match rest with
        | "+"%char :: ds => integer_literal 10 ds
        | "-"%char :: ds => Z.opp <$> integer_literal 10 ds
        | ds => integer_literal 10 ds
        end
      else None
  end.

(** StrUnsignedDecimalLiteral without [Infinity]: the digits as an integer
    and the power of ten that scales it. *)
Definition unsigned_decimal (l : list ascii) : option (Z * Z) :=
  let '(ip, r1) := span_digits 10 l in
  let '(fp, r2) :=
    match r1 with
    | "."%char :: r => span_digits 10 r
    | _ => ([], r1)
    end in
  match (ip ++ fp)%list with
  | [] => None
  | ds => (fun x => (digits_value 10 0 ds, x - Z.of_nat (length fp)))
            <$> exponent_part r2
  end.

(** *** Rounding an exact positive ratio to the nearest double *)

(** [num / den / 2^e] as a ratio of integers. *)
Definition scale2 (num den e : Z) : Z * Z :=
  if e <? 0 then (num * 2 ^ (- e), den) else (num, den * 2 ^ e).

(** Round to nearest, ties to even; [None] is an overflow and a mantissa of
    zero an underflow.  The result [(m, e)] stands for [m * 2^e] with
    [m < 2^53] and [-1074 <= e <= 971]. *)
Definition round_ratio (num den : Z) : option (Z * Z) :=
  let e0 := Z.log2 num - Z.log2 den - 52 in
  let '(n0, d0) := scale2 num den e0 in
  let e1 := if n0 / d0 <? 2 ^ 52 then e0 - 1 else e0 in
  let e := Z.max e1 (-1074) in
  let '(n, d) := scale2 num den e in
  let q := n / d in
  let r := n mod d in
  let q' := if (d <? 2 * r) || ((d =? 2 * r) && Z.odd q) then q + 1 else q in
  let '(m, e') := if q' =? 2 ^ 53 then (2 ^ 52, e + 1) else (q', e) in
  if 971 <? e' then None else Some (m, e').

(** [m * 10^e] as a ratio of integers. *)
Definition scale10 (m e : Z) : Z * Z :=
  if e <? 0 then (m, 10 ^ (- e)) else (m * 10 ^ e, 1).

Definition of_decimal (negative : bool) (m e : Z) : number :=
  if m =? 0 then Zero
  else
    let '(num, den) := scale10 m e in
    match round_ratio num den with
    | None => Infinity negative
    | Some (0, _) => Zero
    | Some (m', e') => Finite negative m' e'
    end.

Definition infinity_word : list ascii := list_ascii_of_string "Infinity".

Definition signed_decimal (negative : bool) (l : list ascii) : number :=
  if bool_decide (l = infinity_word) then Infinity negative
  else match unsigned_decimal l with
       | Some (m, e) => of_decimal negative m e
       | None => NaN
       end.

(** StringToNumber: white space is trimmed, the empty text is zero, a
    prefix [0x], [0o] or [0b] introduces an unsigned integer, and anything
    that is no numeric literal is [NaN]. *)
Definition of_string (s : string) : number :=
  match trim (list_ascii_of_string s) with
  | [] => Zero
  | "+"%char :: l => signed_decimal false l
  | "-"%char :: l => signed_decimal true l
  | "0"%char :: c :: l =>
      let based b :=
        match integer_literal b l with
        | Some v => of_decimal false v 0
        | None => NaN
        end in
      if Ascii.eqb c "x" || Ascii.eqb c "X" then based 16
      else if Ascii.eqb c "o" || Ascii.eqb c "O" then based 8
      else if Ascii.eqb c "b" || Ascii.eqb c "B" then based 2
      else signed_decimal false ("0"%char :: c :: l)
  | l => signed_decimal false l
  end.

(** *** Number::toString *)

(** The double [m * 2^e] as a ratio of integers. *)
Definition ratio_of (m e : Z) : Z * Z :=
  if e <? 0 then (m, 2 ^ (- e)) else (m * 2 ^ e, 1).

(** [10^t <= xn / xd]. *)
Definition pow10_le (t xn xd : Z) : bool :=
  if t <? 0 then xd <=? xn * 10 ^ (- t) else 10 ^ t * xd <=? xn.

Fixpoint climb (fuel : nat) (t xn xd : Z) : Z :=
  match fuel with
  | O => t
  | S fuel' => if pow10_le (t + 1) xn xd then climb fuel' (t + 1) xn xd else t
  end.

(** The [n] with [10^(n-1) <= xn / xd < 10^n]: a lower estimate from the
    binary logarithms, then at most a few steps up. *)
Definition point (xn xd : Z) : Z :=
  climb 6 ((Z.log2 xn - Z.log2 xd) * 30103 / 100000 - 2) xn xd + 1.

(** Does [s * 10^t] denote the double [m * 2^e]? *)
Definition rounds_to (m e s t : Z) : bool :=
  let '(num, den) := scale10 s t in
  bool_decide (round_ratio num den = Some (m, e)).

(** The [k]-digit integer [s], with its [n], such that [s * 10^(n-k)]
    denotes the double and is closest to it (the even one of two equally
    close); [None] when [k] digits are too few. *)
Definition candidate (m e n k : Z) : option (Z * Z) :=
  let '(xn, xd) := ratio_of m e in
  let '(yn, yd) :=
    if k - n <? 0 then (xn, xd * 10 ^ (n - k)) else (xn * 10 ^ (k - n), xd) in
  let lo := yn / yd in
  let r := yn mod yd in
  let hi := if lo + 1 =? 10 ^ k then (10 ^ (k - 1), n + 1) else (lo + 1, n) in
  match rounds_to m e lo (n - k), rounds_to m e (lo + 1) (n - k) with
  | true, true =>
      if (2 * r <? yd) || ((2 * r =? yd) && Z.even lo)
      then Some (lo, n) else Some hi
  | true, false => Some (lo, n)
  | false, true => Some hi
  | false, false => None
  end.

(** The least [k] that has a candidate; seventeen digits always do. *)
Fixpoint shortest (fuel : nat) (m e n k : Z) : Z * Z * Z :=
  match fuel with
  | O => (m, n, k)
  | S fuel' =>
      match candidate m e n k with
      | Some (s, n') => (s, n', k)
      | None => shortest fuel' m e n (k + 1)
      end
  end.

Definition digits_of (s : Z) : string :=
  NilZero.string_of_uint (N.to_uint (Z.to_N s)).

Fixpoint zeros (n : nat) : string :=
  match n with
  | O => ""
  | S n' => String "0" (zeros n')
  end.

(** The text of a positive double from its digits [s], their number [k]
    and the position [n] of the decimal point. *)
Definition format (s n k : Z) : string :=
  let ds := digits_of s in
  if (k <=? n) && (n <=? 21) then ds +:+ zeros (Z.to_nat (n - k))
  else if (0 <? n) && (n <=? 21) then
    substring 0 (Z.to_nat n) ds +:+ "."
      +:+ substring (Z.to_nat n) (Z.to_nat (k - n)) ds
  else if (-6 <? n) && (n <=? 0) then "0." +:+ zeros (Z.to_nat (- n)) +:+ ds
  else
    let e := n - 1 in
    let tail := "e" +:+ (if e <? 0 then "-" else "+") +:+ digits_of (Z.abs e) in
    if k =? 1 then ds +:+ tail
    else substring 0 1 ds +:+ "." +:+ substring 1 (Z.to_nat (k - 1)) ds +:+ tail.

Definition to_string (x : number) : string :=
  match x with
  | NaN => "NaN"
  | Infinity negative => if negative then "-Infinity" else "Infinity"
  | Zero => "0"
  | Finite negative m e =>
      let '(xn, xd) := ratio_of m e in
      let '(s, n, k) := shortest 17 m e (point xn xd) 1 in
      (if negative then "-" else "") +:+ format s n k
  end.

End Num.

Import Js.

(** ** The plugin: what the module body sets up before it returns [load] *)

Definition APPEND : string := "append".
Definition BEFORE_EXTENSION : string := "beforeExtension".

(** The built-in [options] object. *)
Definition default_options : gmap string jsval :=
  <["mode" := VStr APPEND]>
  (<["suffix" := VStr ""]>
  (<["prefix" := VStr "?"]>
  (<["defaultExtension" := VStr ".js"]>
  (<["extensions" := VArr ["js"; "css"; "json"]]> ∅)))).

(** [extend(result, extender)]: every key of [extender] is written over
    [result]. *)
Definition extend (result extender : gmap string jsval) : gmap string jsval :=
  extender ∪ result.

(** The variables the [load] closure captures. *)
Record Plugin : Type := mkPlugin {
  defaultFingerprint : option jsval;
  fingerprints : option jsval;
  options : gmap string jsval;
  extensionRegex : string
}.

Inductive error : Type :=
| NotConfigured   (* Error('Require.fingerprint need to be configured') *)
| TypeError.      (* options.extensions has no join *)

(** Lines 83-90: the default and the mapping an object-shaped configuration
    gives, [dflt] being the default set so far. *)
Definition init_fingerprints (dflt : option jsval) (mc : jsval) :
    option jsval * option jsval :=
  let fingerprints :=
    or_else (or_else (get mc "fingerprint") (get mc "fingerprints")) (Some mc) in
  match fingerprints with
  | Some (VStr _) => (fingerprints, None)
  | Some c =>
      if truthy (get c "default") then (get c "default", fingerprints)
      else (dflt, fingerprints)
  | None => (dflt, fingerprints)
  end.

(** Lines 92-94.  An [options] that is no plain object has index keys at
    most, which nothing reads. *)
Definition init_options (mc : jsval) : gmap string jsval :=
  match get mc "options" with
  | Some (VObj extender) => extend default_options extender
  | _ => default_options
  end.

(** The body of the module function, run once with the value of
    [module.config && module.config()].  Line 98 is the text handed to
    [new RegExp]; the SyntaxError the constructor throws on a text that is
    no expression (an extension such as "(") is not among the errors
    here. *)
Definition init (moduleConfig : option jsval) : error + Plugin :=
  match moduleConfig with
  | None => inl NotConfigured
  | Some mc =>
      if negb (truthy moduleConfig) then inl NotConfigured
      else
        let defaultFingerprint0 :=
          if is_string mc then moduleConfig else None in
        let '(defaultFingerprint1, fingerprints1) :=
          if is_object mc then init_fingerprints defaultFingerprint0 mc
          else (defaultFingerprint0, None) in
        let options1 :=
          if is_object mc then init_options mc else default_options in
        match options1 !! "extensions" with
        | Some (VArr exts) =>
            inr {| defaultFingerprint := defaultFingerprint1;
                   fingerprints := fingerprints1;
                   options := options1;
                   extensionRegex := join "|" exts |}
        | _ => inl TypeError
        end
  end.

(** ** The host: [req], [config] and the trace of one call of [load] *)

(** The capabilities of [req] that answer a question. *)
Record Host : Type := mkHost {
  specified : string -> bool;
  defined : string -> bool;
  toUrl : string -> string
}.

(** The [config] argument: the build flag and the [map] of the loader
    configuration, from requesting module ('*' for all) to logical name to
    the name loaded instead. *)
Record Config : Type := mkConfig {
  isBuild : bool;
  map : option (gmap string (gmap string string))
}.

Section Load.

(** The values modules evaluate to. *)
Context {V : Type}.

(** What [load] does to its surroundings, in order.  A request carries the
    callback the plugin hands to [req]: what it does with the value the
    host delivers. *)
#[warnings="-register-all"]
Inductive event : Type :=
| Specified (name : string)
| Defined (name : string)
| ToUrl (name : string)
| Require (deps : list string) (callback : V -> list event)
| OnLoad (value : option V).

(** The [config] object as it is now and the events so far. *)
Record State : Type := mkState {
  cfg : Config;
  trace : list event
}.

(** A computation that reads and writes [config] and extends the trace. *)
Definition M (A : Type) : Type := State -> A * State.

Definition emit (e : event) : M unit :=
  fun s => (tt, {| cfg := cfg s; trace := (trace s ++ [e])%list |}).

Definition get_config : M Config := fun s => (cfg s, s).

Definition set_config (c : Config) : M unit :=
  fun s => (tt, {| cfg := c; trace := trace s |}).

End Load.

Arguments event : clear implicits.
Arguments State : clear implicits.
Arguments M : clear implicits.

#[global] Instance M_ret {V} : MRet (M V) := fun A a s => (a, s).
#[global] Instance M_bind {V} : MBind (M V) :=
  fun A B k m s => let '(a, s') := m s in k a s'.

(** ** [load] *)

Section Plugin.

Context {V : Type}.
Variable P : Plugin.

(** [req.specified(name)], [req.defined(name)] and [req.toUrl(name)], each
    noted in the trace. *)
Definition call_specified (req : Host) (name : string) : M V bool :=
  emit (Specified name);; mret (specified req name).

Definition call_defined (req : Host) (name : string) : M V bool :=
  emit (Defined name);; mret (defined req name).

Definition call_toUrl (req : Host) (name : string) : M V string :=
  emit (ToUrl name);; mret (toUrl req name).

(** The text of an operand of [+] next to a string. *)
Definition text (v : option jsval) : string :=
  match v with
  | Some w => to_string w
  | None => "undefined"
  end.

(** The unary plus: ToNumber goes through the text of a value. *)
Definition to_number (v : option jsval) : Num.number :=
  match v with
  | Some w => Num.of_string (to_string w)
  | None => Num.NaN
  end.

(** [v === s] for a string constant [s]. *)
Definition strict_eq (v : option jsval) (s : string) : bool :=
  match v with
  | Some (VStr t) => String.eqb t s
  | _ => false
  end.

(** Lines 109-113: the default, unless [fingerprints] has the name. *)
Definition lookup (name : string) : option jsval :=
  match fingerprints P with
  | Some fps =>
      if truthy (fingerprints P) then
        match get fps name with
        | Some v => Some v
        | None => defaultFingerprint P
        end
      else defaultFingerprint P
  | None => defaultFingerprint P
  end.

(** Lines 115-118: prefix and suffix around a fingerprint that is set. *)
Definition wrap (fingerprint : option jsval) : option jsval :=
  if truthy fingerprint
     && (truthy (options P !! "suffix") || truthy (options P !! "prefix"))
  then Some (VStr (text (options P !! "prefix") +:+ text fingerprint
                   +:+ text (options P !! "suffix")))
  else fingerprint.

(** Lines 125-147: the name to load for [url]. *)
Definition load_name (url : string) (fingerprint : option jsval) : string :=
  let mode := options P !! "mode" in
  match Ext.exec (extensionRegex P) url with
  | Some _ =>
      if strict_eq mode BEFORE_EXTENSION then
        Ext.replace (extensionRegex P) url
          (Num.to_string (to_number fingerprint))
      else url +:+ text fingerprint
  | None =>
      let loadName1 :=
        if strict_eq mode BEFORE_EXTENSION then url +:+ text fingerprint
        else url in
      let loadName2 :=
        if negb (Str.contains "!" url)
           && truthy (options P !! "defaultExtension")
        then loadName1 +:+ text (options P !! "defaultExtension")
        else loadName1 in
      if strict_eq mode APPEND then loadName2 +:+ text fingerprint
      else loadName2
  end.

(** Lines 150-157: [config.map['*'][name] = loadName.replace(/^\.\//, '')],
    with [config.map] and its '*' entry created when missing. *)
Definition record_map (name loadName : string) : M V unit :=
  config ← get_config;
  let m := default ∅ (map config) in
  let star := default ∅ (m !! "*") in
  set_config
    {| isBuild := isBuild config;
       map := Some (<["*" := <[name := Str.strip_dot_slash loadName]> star]> m) |}.

(** Lines 109-158: the body of [if(!req.specified(name))]; its value is
    [loadName]. *)
Definition fingerprinted (name : string) (req : Host) : M V string :=
  let fingerprint := wrap (lookup name) in
  if truthy fingerprint then
    is_defined ← call_defined req name;
    if negb is_defined then
      url ← (if negb (Str.contains "!" name) then call_toUrl req name
             else mret name);
      let loadName := load_name url fingerprint in
      (if negb (String.eqb name loadName) then record_map name loadName
       else mret tt);;
      mret loadName
    else mret name
  else mret name.

(** [load: function(name, req, onLoad, config)].  The calls of [onLoad] and
    of [req] itself are events of the trace. *)
Definition load (name : string) (req : Host) : M V unit :=
  config ← get_config;
  if isBuild config then emit (OnLoad None)
  else
    is_specified ← call_specified req name;
    loadName ← (if negb is_specified then fingerprinted name req
                else mret name);
    emit (Require [loadName] (fun value => [OnLoad (Some value)])).

(** One call of [load] with [config], from an empty trace. *)
Definition run (name : string) (req : Host) (config : Config) : State V :=
  snd (load name req {| cfg := config; trace := [] |}).

End Plugin.

(** ** Observations on a call *)

Section Observations.

Context {V : Type}.

(** The callback [load] hands to [req]: the value goes to [onLoad] as it
    is. *)
Definition pass_through : V -> list (event V) :=
  fun value => [OnLoad (Some value)].

(** The names [load] asked the host for. *)
Definition requested (s : State V) : list string :=
  flat_map (fun e => match e with Require deps _ => deps | _ => [] end)
           (trace s).

(** The fingerprint as line 121 tests it. *)
Definition effective (P : Plugin) (name : string) : option jsval :=
  wrap P (lookup P name).

(** Line 123. *)
Definition resolve_url (req : Host) (name : string) : string :=
  if negb (Str.contains "!" name) then toUrl req name else name.

(** The call reaches the rewriting of lines 122-157. *)
Definition rewrites (P : Plugin) (name : string) (req : Host)
    (config : Config) : bool :=
  negb (isBuild config) && negb (specified req name)
  && truthy (effective P name) && negb (defined req name).

(** [config] after the assignment of line 156. *)
Definition written (config : Config) (name loadName : string) : Config :=
  let m := default ∅ (map config) in
  {| isBuild := isBuild config;
     map := Some (<["*" := <[name := Str.strip_dot_slash loadName]>
                             (default ∅ (m !! "*"))]> m) |}.

(** The entry of the wildcard bucket for [name]. *)
Definition mapped (config : Config) (name : string) : option string :=
  m ← map config; star ← m !! "*"; star !! name.

End Observations.

(** [url.match(extensionRegex)] is not [null]. *)
Definition recognized (P : Plugin) (url : string) : bool :=
  match Ext.exec (extensionRegex P) url with
  | Some _ => true
  | None => false
  end.

(** [ext] is one of the alternatives, letter case apart. *)
Definition extension_of (source ext : string) : bool :=
  existsb (Str.ci_eqb ext) (Ext.alternatives source).

(** The suffix lines 140-142 add to a URL without a known extension. *)
Definition default_extension (P : Plugin) (url : string) : string :=
  if negb (Str.contains "!" url) && truthy (options P !! "defaultExtension")
  then text (options P !! "defaultExtension") else "".

(** ** The wording of the specification, to compare the code with *)

(** The resolution of an object-shaped configuration [o] as the
    specification words it: the candidate is [fingerprint], else
    [fingerprints], else [o] itself, each taken when it is there; the result
    is the scalar default and the per-module mapping. *)
Definition spec_candidate (o : gmap string jsval) : jsval :=
  match o !! "fingerprint" with
  | Some v => v
  | None => match o !! "fingerprints" with
            | Some v => v
            | None => VObj o
            end
  end.

Definition spec_resolve (o : gmap string jsval) : option jsval * option jsval :=
  match spec_candidate o with
  | VStr s => (Some (VStr s), None)
  | c => (get c "default", Some c)
  end.

(** The lookup as the specification words it, over the resolved mapping and
    scalar default: the entries are those the configuration wrote, and
    every entry counts when it is there. *)
Definition spec_lookup (perModule scalar : option jsval) (name : string) :
    option jsval :=
  match perModule with
  | Some m =>
      match own m name with
      | Some v => Some v
      | None => match own m "default" with
                | Some d => Some d
                | None => scalar
                end
      end
  | None => scalar
  end.

(** The candidate as line 83 selects it: [||] passes over an empty string. *)
Definition selected (o : gmap string jsval) : option jsval :=
  if truthy (o !! "fingerprint") then o !! "fingerprint"
  else if truthy (o !! "fingerprints") then o !! "fingerprints"
  else Some (VObj o).

(** ** Fixtures *)

(** A host that has seen no module and resolves every name to itself. *)
Definition plain_host : Host :=
  {| specified := fun _ => false;
     defined := fun _ => false;
     toUrl := fun name => name |}.

(** A host whose base URL is the current directory. *)
Definition relative_host : Host :=
  {| specified := fun _ => false;
     defined := fun _ => false;
     toUrl := fun name => "./" +:+ name |}.

(** A host whose base URL holds an exclamation mark. *)
Definition bang_host : Host :=
  {| specified := fun _ => false;
     defined := fun _ => false;
     toUrl := fun name => "cdn!v2/" +:+ name |}.

Definition no_map : Config := {| isBuild := false; map := None |}.
Definition build_pass : Config := {| isBuild := true; map := None |}.

(** [{ fingerprint: '.999', options: { mode: 'beforeExtension', prefix: '' } }] *)
Definition before_config : jsval :=
  VObj {[ "fingerprint" := VStr ".999";
          "options" := VObj {[ "mode" := VStr BEFORE_EXTENSION;
                               "prefix" := VStr "" ]} ]}.

(** [{ fingerprint: '.999', options: { mode: 'beforeExtension' } }] *)
Definition before_prefixed_config : jsval :=
  VObj {[ "fingerprint" := VStr ".999";
          "options" := VObj {[ "mode" := VStr BEFORE_EXTENSION ]} ]}.

(** [{ fingerprint: '.123', options: { prefix: '' } }] *)
Definition bare_config : jsval :=
  VObj {[ "fingerprint" := VStr ".123";
          "options" := VObj {[ "prefix" := VStr "" ]} ]}.

(** [{ a: '.1', 'default': '.9' }] *)
Definition mapping : gmap string jsval :=
  {[ "a" := VStr ".1"; "default" := VStr ".9" ]}.

(** [{ a: '', 'default': '.9' }] *)
Definition opt_out : gmap string jsval :=
  {[ "a" := VStr ""; "default" := VStr ".9" ]}.

(** [{ fingerprint: '', a: '.1' }] *)
Definition empty_fingerprint : gmap string jsval :=
  {[ "fingerprint" := VStr ""; "a" := VStr ".1" ]}.

(** [{ 'default': '' }] *)
Definition empty_default : gmap string jsval :=
  {[ "default" := VStr "" ]}.

(** [{ a: '.1' }] *)
Definition single_entry : gmap string jsval :=
  {[ "a" := VStr ".1" ]}.

(** * The two earlier versions, [src/fingerprint.js]

    The file holds two versions of the plugin.  The first (lines 32-132)
    reads [config.fingerprint] at every call; the second (lines 164-279)
    reads [module.config()] once, as 1.0.3 does.  Both have three options
    only, test the extension with regular-expression literals and add
    '.js' themselves.  Line numbers in this part are those of that file. *)

Module Legacy.

(** The [options] literal of both versions. *)
Definition default_options : gmap string jsval :=
  <["mode" := VStr APPEND]>
  (<["suffix" := VStr ""]>
  (<["prefix" := VStr "?"]> ∅)).

(** [extend(options, extender)] for any value of [extender]: a string or an
    array has index keys only, which nothing reads. *)
Definition extend_options (options : gmap string jsval) (extender : jsval) :
    gmap string jsval :=
  match extender with
  | VObj e => extend options e
  | _ => options
  end.

(** [fingerprints[name] !== undefined ? fingerprints[name]
    : fingerprints['default']]. *)
Definition entry_or_default (fingerprints : jsval) (name : string) :
    option jsval :=
  match get fingerprints name with
  | Some v => Some v
  | None => get fingerprints "default"
  end.

(** Prefix and suffix around a fingerprint that is set. *)
Definition wrap (options : gmap string jsval) (fingerprint : option jsval) :
    option jsval :=
  if truthy fingerprint
     && (truthy (options !! "suffix") || truthy (options !! "prefix"))
  then Some (VStr (text (options !! "prefix") +:+ text fingerprint
                   +:+ text (options !! "suffix")))
  else fingerprint.

(** The branch for a URL that matches [/\.(js|css|json)$/gi]; the
    replacement runs on [/\.(css|js|json)$/gi]. *)
Definition matched_name (options : gmap string jsval) (url : string)
    (fingerprint : option jsval) : string :=
  if strict_eq (options !! "mode") BEFORE_EXTENSION then
    Ext.replace "css|js|json" url (Num.to_string (to_number fingerprint))
  else url +:+ text fingerprint.

End Legacy.

(** ** The version that reads [config.fingerprint] (lines 32-132) *)

Module PerCall.

(** Lines 56-81: the fingerprint for [name] and the options, from the value
    of [config.fingerprint]; [TypeError] when [fingerprint.options] is set
    and [fingerprint.fingerprints] is not, for [undefined] has no
    properties to read.  ([null], which throws in the same places, is not
    a value here.) *)
Definition settings (fingerprint : option jsval) (name : string) :
    error + (option jsval * gmap string jsval) :=
  match fingerprint with
  | Some f =>
      if is_object f then
        let '(options, fingerprints) :=
          match get f "options" with
          | Some extender =>
              (Legacy.extend_options Legacy.default_options extender,
               get f "fingerprints")
          | None => (Legacy.default_options, fingerprint)
          end in
        match fingerprints with
        | Some fps => inr (Legacy.entry_or_default fps name, options)
        | None => inl TypeError
        end
      else inr (fingerprint, Legacy.default_options)
  | None => inr (None, Legacy.default_options)
  end.

(** Lines 93-115. *)
Definition load_name (options : gmap string jsval) (url : string)
    (fingerprint : option jsval) : string :=
  let mode := options !! "mode" in
  match Ext.exec "js|css|json" url with
  | Some _ => Legacy.matched_name options url fingerprint
  | None =>
      let loadName1 :=
        if strict_eq mode BEFORE_EXTENSION then url +:+ text fingerprint
        else url in
      let loadName2 :=
        if negb (Str.contains "!" url) then loadName1 +:+ ".js"
        else loadName1 in
      if strict_eq mode APPEND then loadName2 +:+ text fingerprint
      else loadName2
  end.

Section Load.

Context {V : Type}.

(** Lines 119-123: [config.map['*'][name] = loadName], as it is. *)
Definition record_map (name loadName : string) : M V unit :=
  config ← get_config;
  let m := default ∅ (map config) in
  let star := default ∅ (m !! "*") in
  set_config
    {| isBuild := isBuild config;
       map := Some (<["*" := <[name := loadName]> star]> m) |}.

(** [load: function(name, req, onload, config)], [fingerprint] being the
    value of [config.fingerprint].  The result is the error thrown, if
    any. *)
Definition load (fingerprint : option jsval) (name : string) (req : Host) :
    M V (option error) :=
  config ← get_config;
  if isBuild config then emit (OnLoad None);; mret None
  else
    is_specified ← call_specified req name;
    if negb is_specified then
      match settings fingerprint name with
      | inl e => mret (Some e)
      | inr (fingerprint0, options) =>
          let fingerprint1 := Legacy.wrap options fingerprint0 in
          loadName ←
            (if truthy fingerprint1 then
               is_defined ← call_defined req name;
               if negb is_defined then
                 url ← (if negb (Str.contains "!" name)
                        then call_toUrl req name else mret name);
                 mret (load_name options url fingerprint1)
               else mret name
             else mret name);
          (if negb (String.eqb name loadName) then record_map name loadName
           else mret tt);;
          emit (Require [loadName] (fun value => [OnLoad (Some value)]));;
          mret None
      end
    else
      emit (Require [name] (fun value => [OnLoad (Some value)]));;
      mret None.

(** One call with [config], from an empty trace: the error thrown and the
    state left. *)
Definition run (fingerprint : option jsval) (name : string) (req : Host)
    (config : Config) : option error * State V :=
  load fingerprint name req {| cfg := config; trace := [] |}.

End Load.

End PerCall.

(** ** The version that reads [module.config()] (lines 164-279) *)

Module PerModule.

(** The variables the [load] closure captures. *)
Record Plugin : Type := mkPlugin {
  moduleConfig : option jsval;
  fingerprints : option jsval;
  options : gmap string jsval
}.

(** Lines 167-208. *)
Definition init (mc : option jsval) : error + Plugin :=
  if negb (truthy mc) then inl NotConfigured
  else
    match mc with
    | Some c =>
        if is_object c then
          match get c "options" with
          | Some extender =>
              inr {| moduleConfig := mc;
                     fingerprints := get c "fingerprints";
                     options :=
                       Legacy.extend_options Legacy.default_options extender |}
          | None =>
              inr {| moduleConfig := mc;
                     fingerprints := mc;
                     options := Legacy.default_options |}
          end
        else inr {| moduleConfig := mc;
                    fingerprints := None;
                    options := Legacy.default_options |}
    | None => inl NotConfigured
    end.

(** Lines 219-223: [moduleConfig || config.config.fingerprint], then the
    mapping when there is one.  [config_config] is the value of
    [config.config]; reading [fingerprint] off [undefined] throws. *)
Definition lookup (P : Plugin) (config_config : option jsval)
    (name : string) : error + option jsval :=
  match
    (if truthy (moduleConfig P) then inr (moduleConfig P)
     else match config_config with
          | Some cc => inr (get cc "fingerprint")
          | None => inl TypeError
          end)
  with
  | inl e => inl e
  | inr fingerprint =>
      match fingerprints P with
      | Some fps =>
          if truthy (fingerprints P)
          then inr (Legacy.entry_or_default fps name)
          else inr fingerprint
      | None => inr fingerprint
      end
  end.

(** Lines 235-257. *)
Definition load_name (options : gmap string jsval) (url : string)
    (fingerprint : option jsval) : string :=
  let mode := options !! "mode" in
  match Ext.exec "js|css|json" url with
  | Some _ => Legacy.matched_name options url fingerprint
  | None =>
      let loadName1 :=
        if strict_eq mode BEFORE_EXTENSION then url +:+ text fingerprint
        else url in
      let loadName2 :=
        if negb (Str.contains "!" url) && strict_eq mode APPEND
        then loadName1 +:+ ".js" else loadName1 in
      if strict_eq mode APPEND then loadName2 +:+ text fingerprint
      else loadName2
  end.

Section Load.

Context {V : Type}.
Variable P : Plugin.

(** [load: function(name, req, onLoad, config)]; the map is written as in
    1.0.3 (lines 260-267).  The result is the error thrown, if any. *)
Definition load (config_config : option jsval) (name : string) (req : Host) :
    M V (option error) :=
  config ← get_config;
  if isBuild config then emit (OnLoad None);; mret None
  else
    is_specified ← call_specified req name;
    if negb is_specified then
      match lookup P config_config name with
      | inl e => mret (Some e)
      | inr fingerprint0 =>
          let fingerprint1 := Legacy.wrap (options P) fingerprint0 in
          loadName ←
            (if truthy fingerprint1 then
               is_defined ← call_defined req name;
               if negb is_defined then
                 url ← (if negb (Str.contains "!" name)
                        then call_toUrl req name else mret name);
                 let loadName := load_name (options P) url fingerprint1 in
                 (if negb (String.eqb name loadName)
                  then record_map name loadName else mret tt);;
                 mret loadName
               else mret name
             else mret name);
          emit (Require [loadName] (fun value => [OnLoad (Some value)]));;
          mret None
      end
    else
      emit (Require [name] (fun value => [OnLoad (Some value)]));;
      mret None.

Definition run (config_config : option jsval) (name : string) (req : Host)
    (config : Config) : option error * State V :=
  load config_config name req {| cfg := config; trace := [] |}.

End Load.

End PerModule.

(** ** Definitions for the further properties *)

(** The [options] object after lines 92-94. *)
Definition merged_options (mc : jsval) : gmap string jsval :=
  if is_object mc then init_options mc else default_options.

(** [config.map[bucket][key]]. *)
Definition entry (config : Config) (bucket key : string) : option string :=
  m ← map config; b ← m !! bucket; b !! key.

(** The text between the parentheses of [/\.(js|css|json)$/]. *)
Definition builtin_source : string := "js|css|json".

(** A letter or a digit: a character that stands for itself in a regular
    expression. *)
Definition word_char (c : ascii) : bool :=
  let n := nat_of_ascii c in
  ((48 <=? n)%nat && (n <=? 57)%nat)
  || ((65 <=? n)%nat && (n <=? 90)%nat)
  || ((97 <=? n)%nat && (n <=? 122)%nat).

(** An extension made of letters and digits only, as the built-in ones
    are. *)
Fixpoint literal_word (s : string) : bool :=
  match s with
  | EmptyString => true
  | String c rest => word_char c && literal_word rest
  end.

(** [{ fingerprint: '.5', options: { mode: 'prepend' } }] *)
Definition unknown_mode_config : jsval :=
  VObj {[ "fingerprint" := VStr ".5";
          "options" := VObj {[ "mode" := VStr "prepend" ]} ]}.

(** [{ fingerprint: '.5', fingerprints: { a: '.1' } }] *)
Definition shadowed : gmap string jsval :=
  {[ "fingerprint" := VStr ".5"; "fingerprints" := VObj {[ "a" := VStr ".1" ]} ]}.

(** [{ a: '.1', options: { suffix: '.x' } }] *)
Definition suffixed : gmap string jsval :=
  {[ "a" := VStr ".1"; "options" := VObj {[ "suffix" := VStr ".x" ]} ]}.

(** [{ options: { mode: 'beforeExtension' } }], without [fingerprints]. *)
Definition options_only : gmap string jsval :=
  {[ "options" := VObj {[ "mode" := VStr BEFORE_EXTENSION ]} ]}.


(** The earlier version throws on this value of [config.fingerprint]:
    [options] without [fingerprints]. *)
Definition lacks_fingerprints (fingerprint : option jsval) : Prop :=
  exists f extender,
    fingerprint = Some f /\ is_object f = true /\
    get f "options" = Some extender /\ get f "fingerprints" = None.

(** * Properties *)

(** ** The model of Numbers on known values *)

Example number_texts :
  List.map (fun s => Num.to_string (Num.of_string s))
    [".999"; "123"; "0123"; " 42 "; ""; "1e21"; "1e-7"; "0.000001";
     "9007199254740993"; "0x1F"; "-.5e1"; "1.7976931348623159e308";
     "5e-324"; "0.30000000000000004"; "?.999"; "abc"; "1.5.2"]
  = ["0.999"; "123"; "123"; "42"; "0"; "1e+21"; "1e-7"; "0.000001";
     "9007199254740992"; "31"; "-5"; "Infinity";
     "5e-324"; "0.30000000000000004"; "NaN"; "NaN"; "NaN"].
Proof. vm_compute. reflexivity. Qed.

(** ** Strings *)

Lemma append_cons c s t : String c s +:+ t = String c (s +:+ t).
Proof. reflexivity. Qed.

Lemma append_empty s : s +:+ "" = s.
Proof.
  induction s as [|c s IH]; [reflexivity|]. by rewrite append_cons, IH.
Qed.

Lemma append_assoc a b c : (a +:+ b) +:+ c = a +:+ b +:+ c.
Proof.
  induction a as [|x a IH]; [reflexivity|]. by rewrite !append_cons, IH.
Qed.


(** ** The extension test, declaratively *)

Lemma exec_cons source c rest :
  Ext.exec source (String c rest) =
    if Ascii.eqb c "." && extension_of source rest then Some ("", rest)
    else match Ext.exec source rest with
         | Some (before, ext) => Some (String c before, ext)
         | None => None
         end.
Proof. reflexivity. Qed.

Lemma exec_Some source url before ext :
  Ext.exec source url = Some (before, ext) ->
  url = before +:+ "." +:+ ext /\ extension_of source ext = true.
Proof.
  revert before. induction url as [|c rest IH]; intros before.
  - discriminate.
  - rewrite exec_cons.
    destruct (Ascii.eqb c "." && extension_of source rest) eqn:Hhere.
    + intros [= <- <-]. apply andb_prop in Hhere as [Hc Hext].
      apply Ascii.eqb_eq in Hc. subst c. split; [reflexivity | exact Hext].
    + destruct (Ext.exec source rest) as [[b e]|] eqn:Hrest; [|discriminate].
      intros [= <- <-]. destruct (IH b eq_refl) as [-> Hext].
      split; [reflexivity | exact Hext].
Qed.

Lemma exec_complete source before ext :
  extension_of source ext = true ->
  is_Some (Ext.exec source (before +:+ "." +:+ ext)).
Proof.
  intros Hext. induction before as [|c rest IH].
  - change ("" +:+ "." +:+ ext) with (String "." ext).
    rewrite exec_cons, Hext. simpl. eauto.
  - rewrite append_cons, exec_cons.
    destruct (Ascii.eqb c "." && _); [eauto|].
    destruct IH as [[b e] ->]. eauto.
Qed.

(** A URL is recognized exactly when it ends in a dot and one of the
    extensions, in any letter case. *)
Lemma recognized_spec P url :
  recognized P url = true <->
  exists before ext,
    url = before +:+ "." +:+ ext /\ extension_of (extensionRegex P) ext = true.
Proof.
  unfold recognized. split.
  - destruct (Ext.exec _ url) as [[b e]|] eqn:H; [|discriminate].
    intros _. exists b, e. eapply exec_Some, H.
  - intros (b & e & -> & Hext).
    destruct (exec_complete (extensionRegex P) b e Hext) as [x ->].
    reflexivity.
Qed.

(** The built-in extensions. *)
Lemma builtin_alternatives :
  Ext.alternatives (join "|" ["js"; "css"; "json"]) = ["js"; "css"; "json"].
Proof. reflexivity. Qed.

(** Letter case does not count, and the dot and the end of the URL do. *)
Example recognized_builtin :
  exists P,
    init (Some (VStr "v=1")) = inr P /\
    List.map (recognized P)
      ["a/b.js"; "a/b.CSS"; "a/b.Json"; "a/b.jsx"; "a/bjs"; "a.js/b"; ".json"]
    = [true; true; true; false; false; false; true].
Proof. eexists. split; [vm_compute; reflexivity|]. vm_compute. reflexivity. Qed.

(** ** Property reads *)

(** An own property is what a read yields. *)
Lemma get_own (o : gmap string jsval) (k : string) (v : jsval) :
  o !! k = Some v -> get (VObj o) k = Some v.
Proof. intros H. unfold get. rewrite H. by destruct (inherited k). Qed.

(** A name [Object.prototype] does not have is read off the object alone. *)
Lemma get_not_inherited (o : gmap string jsval) (k : string) :
  inherited k = None -> get (VObj o) k = o !! k.
Proof. intros H. unfold get. by rewrite H. Qed.

(** Off [Object.prototype], a read and the own property are the same. *)
Lemma get_is_own (m : jsval) (k : string) :
  inherited k = None -> get m k = own m k.
Proof. intros H. destruct m; try reflexivity. by apply get_not_inherited. Qed.

(** A name [Object.prototype] has is never [undefined]. *)
Lemma get_inherited (o : gmap string jsval) (k : string) (w : jsval) :
  inherited k = Some w -> get (VObj o) k = Some (default w (o !! k)).
Proof. intros H. unfold get. by rewrite H. Qed.

(** ** What [init] leaves in the variables *)

Lemma init_succeeds (mc : jsval) (exts : list string) :
  truthy (Some mc) = true ->
  (if is_object mc then init_options mc else default_options) !! "extensions"
    = Some (VArr exts) ->
  exists P, init (Some mc) = inr P /\ extensionRegex P = join "|" exts.
Proof.
  intros Ht He. unfold init. rewrite Ht. cbv [negb].
  destruct (if is_object mc then init_fingerprints _ mc else _) as [d f].
  rewrite He. eauto.
Qed.

Lemma init_variables (mc : jsval) (P : Plugin) :
  init (Some mc) = inr P ->
  (defaultFingerprint P, fingerprints P) =
    if is_object mc then init_fingerprints None mc
    else (if is_string mc then Some mc else None, None).
Proof.
  unfold init. destruct (negb (truthy (Some mc))); [discriminate|].
  destruct mc as [s|l|o|n]; cbv [is_object is_string].
  - simpl. intros [= <-]. reflexivity.
  - destruct (init_fingerprints None (VArr l)) as [d f].
    destruct (init_options (VArr l) !! "extensions") as [[| | |]|];
      intros [= <-]; reflexivity.
  - destruct (init_fingerprints None (VObj o)) as [d f].
    destruct (init_options (VObj o) !! "extensions") as [[| | |]|];
      intros [= <-]; reflexivity.
  - simpl. intros [= <-]. reflexivity.
Qed.

Lemma init_fingerprints_object (o : gmap string jsval) :
  init_fingerprints None (VObj o) =
    match selected o with
    | Some (VStr s) => (Some (VStr s), None)
    | c =>
        (if truthy (c ≫= fun m => get m "default")
         then c ≫= fun m => get m "default" else None, c)
    end.
Proof.
  unfold init_fingerprints, selected, or_else.
  change (get (VObj o) "fingerprint") with (o !! "fingerprint").
  change (get (VObj o) "fingerprints") with (o !! "fingerprints").
  destruct (truthy (o !! "fingerprint")) eqn:Hf.
  - rewrite Hf.
    destruct (o !! "fingerprint") as [[s|l|m|n]|]; try discriminate Hf;
      cbn [mbind option_bind]; try reflexivity.
    by destruct (truthy (get (VObj m) "default")).
  - destruct (truthy (o !! "fingerprints")) eqn:Hg.
    + destruct (o !! "fingerprints") as [[s|l|m|n]|]; try discriminate Hg;
        cbn [mbind option_bind]; try reflexivity.
      by destruct (truthy (get (VObj m) "default")).
    + cbn [mbind option_bind truthy].
      by destruct (truthy (get (VObj o) "default")).
Qed.

Lemma init_object (o : gmap string jsval) (P : Plugin) :
  init (Some (VObj o)) = inr P ->
  match selected o with
  | Some (VStr s) =>
      defaultFingerprint P = Some (VStr s) /\ fingerprints P = None
  | c =>
      fingerprints P = c /\
      defaultFingerprint P =
        if truthy (c ≫= fun m => get m "default")
        then c ≫= fun m => get m "default" else None
  end.
Proof.
  intros Hi. apply init_variables in Hi. simpl in Hi.
  rewrite init_fingerprints_object in Hi.
  destruct (selected o) as [[s|l|m|n]|]; injection Hi as -> ->; by split.
Qed.

(** A mapping that [init] sets is never a string, and the default [init]
    leaves next to it is its "default" entry when that is not empty. *)
Lemma init_mapping (mc : option jsval) (P : Plugin) (m : jsval) :
  init mc = inr P ->
  fingerprints P = Some m ->
  truthy (Some m) = true /\
  defaultFingerprint P =
    if truthy (get m "default") then get m "default" else None.
Proof.
  destruct mc as [[s|l|o|n]|]; [| | | |discriminate]; intros Hi Hm.
  - apply init_variables in Hi. simpl in Hi. congruence.
  - apply init_variables in Hi. injection Hi as Hd Hf.
    rewrite Hm in Hf. injection Hf as ->. by rewrite Hd.
  - pose proof (init_object o P Hi) as H.
    destruct (selected o) as [[s|l|o'|n]|].
    + destruct H as [_ H]. congruence.
    + destruct H as [H1 H2]. rewrite Hm in H1. injection H1 as ->.
      split; [done|exact H2].
    + destruct H as [H1 H2]. rewrite Hm in H1. injection H1 as ->.
      split; [done|exact H2].
    + destruct H as [H1 H2]. rewrite Hm in H1. injection H1 as ->.
      split; [done|exact H2].
    + destruct H as [H _]. congruence.
  - apply init_variables in Hi. simpl in Hi. congruence.
Qed.

(** ** What a call does, case by case *)

Section Runs.

Context {V : Type}.
Variable P : Plugin.

Lemma run_build name req config :
  isBuild config = true ->
  run (V:=V) P name req config = {| cfg := config; trace := [OnLoad None] |}.
Proof.
  intros Hb. unfold run, load, get_config, mbind, M_bind. simpl.
  rewrite Hb. reflexivity.
Qed.

Lemma run_specified name req config :
  isBuild config = false -> specified req name = true ->
  run (V:=V) P name req config =
    {| cfg := config;
       trace := [Specified name; Require [name] pass_through] |}.
Proof.
  intros Hb Hs. unfold run, load, call_specified, get_config, mbind, M_bind.
  simpl. rewrite Hb. simpl. rewrite Hs. reflexivity.
Qed.

Lemma run_no_fingerprint name req config :
  isBuild config = false -> specified req name = false ->
  truthy (effective P name) = false ->
  run (V:=V) P name req config =
    {| cfg := config;
       trace := [Specified name; Require [name] pass_through] |}.
Proof.
  intros Hb Hs Hf.
  unfold run, load, fingerprinted, call_specified, get_config, mbind, M_bind.
  simpl. rewrite Hb. simpl. rewrite Hs. simpl.
  unfold effective in Hf. rewrite Hf. reflexivity.
Qed.

Lemma run_defined name req config :
  isBuild config = false -> specified req name = false ->
  truthy (effective P name) = true -> defined req name = true ->
  run (V:=V) P name req config =
    {| cfg := config;
       trace := [Specified name; Defined name; Require [name] pass_through] |}.
Proof.
  intros Hb Hs Hf Hd.
  unfold run, load, fingerprinted, call_specified, call_defined, get_config,
    mbind, M_bind.
  simpl. rewrite Hb. simpl. rewrite Hs. simpl.
  unfold effective in Hf. rewrite Hf. simpl. rewrite Hd. reflexivity.
Qed.

(** The rewriting path in full. *)
Lemma run_rewrites name req config :
  rewrites P name req config = true ->
  let loadName := load_name P (resolve_url req name) (effective P name) in
  run (V:=V) P name req config =
    {| cfg := if String.eqb name loadName then config
              else written config name loadName;
       trace := [Specified name; Defined name]
                ++ (if Str.contains "!" name then [] else [ToUrl name])
                ++ [Require [loadName] pass_through] |}.
Proof.
  unfold rewrites. intros H.
  apply andb_prop in H as [H Hd]. apply andb_prop in H as [H Hf].
  apply andb_prop in H as [Hb Hs].
  apply negb_true_iff in Hb. apply negb_true_iff in Hs.
  apply negb_true_iff in Hd. cbv zeta.
  unfold run, load, fingerprinted, call_specified, call_defined, call_toUrl,
    record_map, resolve_url, get_config, set_config, mbind, M_bind, mret, M_ret.
  simpl. rewrite Hb. simpl. rewrite Hs. simpl.
  unfold effective in *. rewrite Hf. simpl. rewrite Hd. simpl.
  destruct (Str.contains "!" name); simpl;
    match goal with
    | |- context [String.eqb ?a ?b] => destruct (String.eqb a b)
    end; reflexivity.
Qed.

(** The names requested on the rewriting path. *)
Lemma requested_rewrites name req config :
  rewrites P name req config = true ->
  requested (run (V:=V) P name req config) =
    [load_name P (resolve_url req name) (effective P name)].
Proof.
  intros H. rewrite (run_rewrites name req config H).
  unfold requested. simpl. destruct (Str.contains "!" name); reflexivity.
Qed.

End Runs.

(** ** [load_name], branch by branch *)

Section LoadName.

Variable P : Plugin.

Lemma mode_append_not_before :
  strict_eq (options P !! "mode") APPEND = true ->
  strict_eq (options P !! "mode") BEFORE_EXTENSION = false.
Proof.
  unfold strict_eq. destruct (options P !! "mode") as [[s| | |]|]; try discriminate.
  intros H. apply String.eqb_eq in H. subst s. reflexivity.
Qed.

Lemma mode_before_not_append :
  strict_eq (options P !! "mode") BEFORE_EXTENSION = true ->
  strict_eq (options P !! "mode") APPEND = false.
Proof.
  unfold strict_eq. destruct (options P !! "mode") as [[s| | |]|]; try discriminate.
  intros H. apply String.eqb_eq in H. subst s. reflexivity.
Qed.

Lemma load_name_recognized_before url fingerprint before ext :
  Ext.exec (extensionRegex P) url = Some (before, ext) ->
  strict_eq (options P !! "mode") BEFORE_EXTENSION = true ->
  load_name P url fingerprint =
    before +:+ Num.to_string (to_number fingerprint) +:+ "." +:+ ext.
Proof.
  intros He Hm. unfold load_name, Ext.replace. rewrite He, Hm. reflexivity.
Qed.

Lemma load_name_recognized_append url fingerprint :
  recognized P url = true ->
  strict_eq (options P !! "mode") BEFORE_EXTENSION = false ->
  load_name P url fingerprint = url +:+ text fingerprint.
Proof.
  unfold recognized, load_name. intros He Hm.
  destruct (Ext.exec _ url); [|discriminate]. rewrite Hm. reflexivity.
Qed.

Lemma load_name_plain_before url fingerprint :
  recognized P url = false ->
  strict_eq (options P !! "mode") BEFORE_EXTENSION = true ->
  load_name P url fingerprint =
    url +:+ text fingerprint +:+ default_extension P url.
Proof.
  unfold recognized, load_name, default_extension. intros He Hm.
  destruct (Ext.exec _ url); [discriminate|].
  rewrite Hm, (mode_before_not_append Hm).
  destruct (negb _ && _); [by rewrite append_assoc|].
  by rewrite append_empty.
Qed.

Lemma load_name_plain_append url fingerprint :
  recognized P url = false ->
  strict_eq (options P !! "mode") APPEND = true ->
  load_name P url fingerprint =
    url +:+ default_extension P url +:+ text fingerprint.
Proof.
  unfold recognized, load_name, default_extension. intros He Hm.
  destruct (Ext.exec _ url); [discriminate|].
  rewrite Hm, (mode_append_not_before Hm).
  destruct (negb _ && _); [by rewrite append_assoc|reflexivity].
Qed.

End LoadName.

(** ** The name map *)


(** Entries of the wildcard bucket for other names stay as they were. *)
Lemma mapped_written_other config name loadName other :
  other <> name ->
  mapped (written config name loadName) other = mapped config other.
Proof.
  intros Hne. unfold mapped, written. simpl. rewrite lookup_insert_eq. simpl.
  rewrite lookup_insert_ne by congruence.
  destruct (map config) as [m|]; simpl; [|reflexivity].
  by destruct (m !! "*").
Qed.

(** ** BEFORE_EXTENSION in front of a recognized extension, in general *)

(** The replacement is the text of a Number. *)
Lemma requested_before_recognized {V} (P : Plugin) name req config before ext :
  rewrites P name req config = true ->
  strict_eq (options P !! "mode") BEFORE_EXTENSION = true ->
  Ext.exec (extensionRegex P) (resolve_url req name) = Some (before, ext) ->
  requested (run (V:=V) P name req config) =
    [before +:+ Num.to_string (to_number (effective P name)) +:+ "." +:+ ext].
Proof.
  intros Hr Hm He. rewrite (requested_rewrites P name req config Hr).
  by rewrite (load_name_recognized_before P _ _ _ _ He Hm).
Qed.

(** With the built-in prefix the operand of the unary plus starts with a
    question mark and the Number is NaN. *)
Example before_extension_default_prefix :
  exists P,
    init (Some before_prefixed_config) = inr P /\
    effective P "app/main.js" = Some (VStr "?.999") /\
    requested (run (V:=unit) P "app/main.js" plain_host no_map)
      = ["app/mainNaN.js"].
Proof.
  eexists. split; [vm_compute; reflexivity|].
  split; [vm_compute; reflexivity|]. vm_compute. reflexivity.
Qed.

(** * The claims *)

(** ** C1: the fingerprint before a recognized extension *)

(** C1 (the code departs from it).  In BEFORE_EXTENSION mode, for a URL
    that ends in a recognized extension, the claim wants the fingerprint
    spliced verbatim before the extension.  The code splices the text of the
    Number its unary plus makes of the fingerprint: with the options
    [{ mode: 'beforeExtension', prefix: '' }], the fingerprint ".999" and the
    URL "app/main.js" the call is in the rewriting case of the claim, the
    expression matches with "app/main" before the dot and "js" captured, and
    the name loaded is "app/main0.999.js", not "app/main.999.js". *)
Theorem before_extension_coerces_fingerprint :
  exists P,
    init (Some before_config) = inr P /\
    rewrites P "app/main.js" plain_host no_map = true /\
    strict_eq (options P !! "mode") BEFORE_EXTENSION = true /\
    effective P "app/main.js" = Some (VStr ".999") /\
    Ext.exec (extensionRegex P) (resolve_url plain_host "app/main.js")
      = Some ("app/main", "js") /\
    requested (run (V:=unit) P "app/main.js" plain_host no_map)
      = ["app/main0.999.js"] /\
    "app/main0.999.js" <> "app/main" +:+ ".999" +:+ "." +:+ "js".
Proof.
  eexists. split; [vm_compute; reflexivity|].
  repeat split; try (vm_compute; reflexivity). discriminate.
Qed.

(** ** C2: BEFORE_EXTENSION without a recognized extension *)

(** The claim as it is worded fails: "app/main" with the fingerprint ".999"
    is loaded as "app/main.999.js", the default extension after the
    fingerprint. *)
Lemma before_extension_plain_counterexample :
  exists P,
    init (Some before_config) = inr P /\
    rewrites P "app/main" plain_host no_map = true /\
    strict_eq (options P !! "mode") BEFORE_EXTENSION = true /\
    recognized P (resolve_url plain_host "app/main") = false /\
    requested (run (V:=unit) P "app/main" plain_host no_map)
      = ["app/main.999.js"] /\
    requested (run (V:=unit) P "app/main" plain_host no_map)
      <> [resolve_url plain_host "app/main" +:+ text (effective P "app/main")].
Proof.
  eexists. split; [vm_compute; reflexivity|].
  repeat split; try (vm_compute; reflexivity). vm_compute. discriminate.
Qed.

(** C2 (amended).  In BEFORE_EXTENSION mode, for a URL without a recognized
    extension and an effective fingerprint, the load name is
    [url + fingerprint] followed by the default extension when the URL holds
    no '!' and the default extension is not empty; it is exactly
    [url + fingerprint] when the URL holds a '!' or the default extension is
    empty. *)
Theorem before_extension_plain {V} (P : Plugin) name req config :
  rewrites P name req config = true ->
  strict_eq (options P !! "mode") BEFORE_EXTENSION = true ->
  recognized P (resolve_url req name) = false ->
  let url := resolve_url req name in
  let fingerprint := text (effective P name) in
  let defaultExtension := options P !! "defaultExtension" in
  (Str.contains "!" url = false -> truthy defaultExtension = true ->
   requested (run (V:=V) P name req config)
     = [url +:+ fingerprint +:+ text defaultExtension]) /\
  (Str.contains "!" url = true \/ truthy defaultExtension = false ->
   requested (run (V:=V) P name req config) = [url +:+ fingerprint]).
Proof.
  intros Hr Hm He url fingerprint defaultExtension.
  rewrite (requested_rewrites P name req config Hr).
  rewrite (load_name_plain_before P _ _ He Hm).
  fold url fingerprint. unfold default_extension. fold url defaultExtension.
  split.
  - intros -> ->. reflexivity.
  - intros [-> | ->]; simpl; rewrite ?andb_false_r, append_empty; reflexivity.
Qed.

Lemma before_extension_plain_witness :
  exists P,
    init (Some before_config) = inr P /\
    requested (run (V:=unit) P "app/main" plain_host no_map)
      = ["app/main.999.js"] /\
    requested (run (V:=unit) P "css!app/main" plain_host no_map)
      = ["css!app/main.999"].
Proof.
  eexists. split; [vm_compute; reflexivity|]. split.
  - refine (proj1 (before_extension_plain (V:=unit) _ "app/main" plain_host
                     no_map _ _ _) _ _); vm_compute; reflexivity.
  - refine (proj2 (before_extension_plain (V:=unit) _ "css!app/main" plain_host
                     no_map _ _ _) _); [vm_compute; reflexivity ..|].
    left. vm_compute; reflexivity.
Defined.

(** ** C3: resolving an object-shaped configuration *)

(** [{ fingerprint: '', a: '.1' }]: the worded resolution takes the empty
    string as the scalar default and sets no mapping; the code takes the
    whole object as the mapping, and "a" is loaded with its fingerprint. *)
Lemma resolve_counterexample :
  exists P,
    init (Some (VObj empty_fingerprint)) = inr P /\
    spec_resolve empty_fingerprint = (Some (VStr ""), None) /\
    fingerprints P = Some (VObj empty_fingerprint) /\
    defaultFingerprint P = None /\
    (defaultFingerprint P, fingerprints P) <> spec_resolve empty_fingerprint /\
    requested (run (V:=unit) P "a" plain_host no_map) = ["a.js?.1"].
Proof.
  eexists. split; [vm_compute; reflexivity|].
  repeat split; try (vm_compute; reflexivity). vm_compute. discriminate.
Qed.

(** C3 (amended).  For an object-shaped raw configuration the candidate is
    [fingerprint] when it is set and not empty, else [fingerprints] when it
    is set and not empty, else the raw object itself; a candidate that is a
    string becomes the scalar default and no per-module mapping is set;
    any other candidate becomes the per-module mapping, and its "default"
    entry, when it is there and not empty, becomes the default fingerprint
    (there is no default otherwise). *)
Theorem resolve_object (o : gmap string jsval) (P : Plugin) :
  init (Some (VObj o)) = inr P ->
  match selected o with
  | Some (VStr s) =>
      defaultFingerprint P = Some (VStr s) /\ fingerprints P = None
  | c =>
      fingerprints P = c /\
      defaultFingerprint P =
        if truthy (c ≫= fun m => get m "default")
        then c ≫= fun m => get m "default" else None
  end.
Proof. apply init_object. Qed.

Lemma resolve_object_witness :
  exists P,
    init (Some (VObj mapping)) = inr P /\
    fingerprints P = Some (VObj mapping) /\
    defaultFingerprint P = Some (VStr ".9").
Proof.
  eexists. split; [vm_compute; reflexivity|].
  exact (resolve_object mapping _ eq_refl).
Defined.

(** ** C4: looking a name up *)

(** A remark on [{ 'default': '' }]: the mapping has a "default" entry, and
    the lookup of an unmapped name yields [undefined], not that entry.
    Either value leaves the name without a fingerprint, so nothing a call
    does tells the two apart. *)
Lemma empty_default_is_not_looked_up :
  exists P,
    init (Some (VObj empty_default)) = inr P /\
    fingerprints P = Some (VObj empty_default) /\
    lookup P "b" = None /\
    spec_lookup (fingerprints P) (defaultFingerprint P) "b" = Some (VStr "") /\
    lookup P "b" <> spec_lookup (fingerprints P) (defaultFingerprint P) "b".
Proof.
  eexists. split; [vm_compute; reflexivity|].
  repeat split; try (vm_compute; reflexivity). vm_compute. discriminate.
Qed.

(** C4 (the code departs from it).  With a plain object as the mapping,
    for every name that [Object.prototype] does not have, the lookup is
    what the claim says: it agrees with the worded lookup on whether there
    is a fingerprint, and on the fingerprint when there is one.  For a name
    the prototype has, the test of line 111 finds the inherited function:
    with [{ a: '.1', 'default': '.9' }], "a" yields ".1" and "b" yields
    ".9" as claimed, but the unmapped name "toString" yields the function
    [toString], not ".9", and is loaded under that function's text. *)
Theorem lookup_finds_inherited_names :
  (forall mc P (o : gmap string jsval) name,
     init mc = inr P ->
     fingerprints P = Some (VObj o) ->
     inherited name = None ->
     truthy (lookup P name)
       = truthy (spec_lookup (fingerprints P) (defaultFingerprint P) name) /\
     (truthy (lookup P name) = true ->
      lookup P name
        = spec_lookup (fingerprints P) (defaultFingerprint P) name)) /\
  (exists P,
     init (Some (VObj mapping)) = inr P /\
     mapping !! "toString" = None /\
     lookup P "a" = Some (VStr ".1") /\
     lookup P "b" = Some (VStr ".9") /\
     spec_lookup (fingerprints P) (defaultFingerprint P) "toString"
       = Some (VStr ".9") /\
     lookup P "toString" = Some (VNative "toString") /\
     requested (run (V:=unit) P "toString" plain_host no_map)
       = ["toString.js?function toString() { [native code] }"]).
Proof.
  split.
  - intros mc P o name Hi Hm Hn. unfold lookup, spec_lookup. rewrite Hm.
    destruct (init_mapping mc P (VObj o) Hi Hm) as [_ Hd].
    rewrite (get_is_own (VObj o) name Hn).
    rewrite (get_is_own (VObj o) "default" eq_refl) in Hd.
    destruct (own (VObj o) name) as [v|]; [done|].
    rewrite Hd. destruct (own (VObj o) "default") as [d|]; [|done].
    destruct (truthy (Some d)) eqn:Ht; [done|]. split; [|done].
    reflexivity.
  - eexists. split; [vm_compute; reflexivity|].
    repeat split; vm_compute; reflexivity.
Qed.

(** ** C5: APPEND after a recognized extension *)

(** C5.  In APPEND mode, for a URL that ends in a recognized extension and
    an effective fingerprint, the load name is exactly [url + fingerprint]. *)
Theorem append_recognized {V} (P : Plugin) name req config :
  rewrites P name req config = true ->
  strict_eq (options P !! "mode") APPEND = true ->
  recognized P (resolve_url req name) = true ->
  requested (run (V:=V) P name req config)
    = [resolve_url req name +:+ text (effective P name)].
Proof.
  intros Hr Hm He. rewrite (requested_rewrites P name req config Hr).
  by rewrite (load_name_recognized_append P _ _ He (mode_append_not_before P Hm)).
Qed.

(** "styles/app.css" with the fingerprint "?v=7" is loaded as
    "styles/app.css?v=7". *)
Lemma append_recognized_witness :
  exists P,
    init (Some (VStr "v=7")) = inr P /\
    effective P "styles/app.css" = Some (VStr "?v=7") /\
    requested (run (V:=unit) P "styles/app.css" plain_host no_map)
      = ["styles/app.css?v=7"].
Proof.
  eexists. split; [vm_compute; reflexivity|]. split; [vm_compute; reflexivity|].
  refine (append_recognized (V:=unit) _ "styles/app.css" plain_host no_map
            _ _ _); vm_compute; reflexivity.
Defined.

(** ** C6: APPEND without a recognized extension *)

(** The claim as it is worded fails: the test of line 140 is on the URL, and
    a name without a '!' may resolve to a URL that has one.  Under the base
    URL "cdn!v2/" the name "components/widget" gets no default
    extension. *)
Lemma append_plain_counterexample :
  exists P,
    init (Some (VStr ".123")) = inr P /\
    rewrites P "components/widget" bang_host no_map = true /\
    strict_eq (options P !! "mode") APPEND = true /\
    recognized P (resolve_url bang_host "components/widget") = false /\
    Str.contains "!" "components/widget" = false /\
    truthy (options P !! "defaultExtension") = true /\
    requested (run (V:=unit) P "components/widget" bang_host no_map)
      = ["cdn!v2/components/widget?.123"] /\
    requested (run (V:=unit) P "components/widget" bang_host no_map)
      <> [resolve_url bang_host "components/widget"
          +:+ text (options P !! "defaultExtension")
          +:+ text (effective P "components/widget")].
Proof.
  eexists. split; [vm_compute; reflexivity|].
  repeat split; try (vm_compute; reflexivity). vm_compute. discriminate.
Qed.

(** C6 (amended).  In APPEND mode, for a URL without a recognized
    extension and an effective fingerprint: if the URL holds no '!' and the
    default extension is not empty, the load name is
    [url + defaultExtension + fingerprint]; if the name holds a '!', no
    default extension is added and the load name is [url + fingerprint]. *)
Theorem append_plain {V} (P : Plugin) name req config :
  rewrites P name req config = true ->
  strict_eq (options P !! "mode") APPEND = true ->
  recognized P (resolve_url req name) = false ->
  let url := resolve_url req name in
  let fingerprint := text (effective P name) in
  let defaultExtension := options P !! "defaultExtension" in
  (Str.contains "!" url = false -> truthy defaultExtension = true ->
   requested (run (V:=V) P name req config)
     = [url +:+ text defaultExtension +:+ fingerprint]) /\
  (Str.contains "!" name = true ->
   requested (run (V:=V) P name req config) = [url +:+ fingerprint]).
Proof.
  intros Hr Hm He url fingerprint defaultExtension.
  rewrite (requested_rewrites P name req config Hr).
  rewrite (load_name_plain_append P _ _ He Hm).
  fold url fingerprint. unfold default_extension. fold url defaultExtension.
  split.
  - intros -> ->. reflexivity.
  - intros Hn. assert (url = name) as Hu.
    { unfold url, resolve_url. by rewrite Hn. }
    by rewrite Hu, Hn.
Qed.

(** "components/widget" with the fingerprint ".123" and the default
    extension ".js" is loaded as "components/widget.js.123"; a name with a
    loader prefix gets the fingerprint alone. *)
Lemma append_plain_witness :
  exists P,
    init (Some bare_config) = inr P /\
    requested (run (V:=unit) P "components/widget" plain_host no_map)
      = ["components/widget.js.123"] /\
    requested (run (V:=unit) P "css!components/widget" plain_host no_map)
      = ["css!components/widget.123"].
Proof.
  eexists. split; [vm_compute; reflexivity|]. split.
  - refine (proj1 (append_plain (V:=unit) _ "components/widget" plain_host
                     no_map _ _ _) _ _); vm_compute; reflexivity.
  - refine (proj2 (append_plain (V:=unit) _ "css!components/widget" plain_host
                     no_map _ _ _) _); vm_compute; reflexivity.
Defined.

(** ** C7: the name map *)


(** ** C8: calls that rewrite nothing *)

(** C8 (the code departs from it).  Without a default and without an
    entry for the name, the lookup yields nothing for every name that
    [Object.prototype] does not have; for a name it has, the lookup yields
    what the mapping inherits.  With [{ a: '.1' }] and a host that has
    seen nothing, the name "constructor" has no default and no entry, and
    yet is rewritten: it is loaded under the text of the function [Object]
    and the map is written. *)
Theorem inherited_name_is_fingerprinted :
  (forall (P : Plugin) (m : gmap string jsval) name,
     fingerprints P = Some (VObj m) ->
     defaultFingerprint P = None ->
     m !! name = None ->
     inherited name = None ->
     lookup P name = None) /\
  (forall (P : Plugin) (m : gmap string jsval) name w,
     fingerprints P = Some (VObj m) ->
     m !! name = None ->
     inherited name = Some w ->
     lookup P name = Some w) /\
  (exists P,
     init (Some (VObj single_entry)) = inr P /\
     defaultFingerprint P = None /\
     fingerprints P = Some (VObj single_entry) /\
     single_entry !! "constructor" = None /\
     isBuild no_map = false /\
     specified plain_host "constructor" = false /\
     defined plain_host "constructor" = false /\
     lookup P "constructor" = Some (VNative "Object") /\
     requested (run (V:=unit) P "constructor" plain_host no_map)
       = ["constructor.js?function Object() { [native code] }"] /\
     mapped (cfg (run (V:=unit) P "constructor" plain_host no_map))
            "constructor"
       = Some "constructor.js?function Object() { [native code] }").
Proof.
  split; [|split].
  - intros P m name Hm Hd Ho Hn. unfold lookup. rewrite Hm. cbn [truthy].
    by rewrite (get_not_inherited m name Hn), Ho.
  - intros P m name w Hm Ho Hn. unfold lookup. rewrite Hm. cbn [truthy].
    by rewrite (get_inherited m name w Hn), Ho.
  - eexists. split; [vm_compute; reflexivity|].
    repeat split; vm_compute; reflexivity.
Qed.

(** ** C9: the build pass *)

(** C9.  When [config.isBuild] is set, all the call does is one call of
    [onLoad] with [null]: the host is asked nothing and for nothing,
    [config] is left as it was, and the settings of the plugin play no
    part. *)
Theorem build_pass_completes_with_null {V} (P : Plugin) name req config :
  isBuild config = true ->
  run (V:=V) P name req config = {| cfg := config; trace := [OnLoad None] |}.
Proof. apply run_build. Qed.

Lemma build_pass_completes_with_null_witness :
  exists P,
    init (Some (VObj mapping)) = inr P /\
    run (V:=unit) P "a" plain_host build_pass
      = {| cfg := build_pass; trace := [OnLoad None] |}.
Proof.
  eexists. split; [vm_compute; reflexivity|].
  exact (build_pass_completes_with_null (V:=unit) _ "a" plain_host build_pass
           eq_refl).
Defined.

(** ** C10: an empty entry opts a module out *)

(** C10.  When the per-module mapping maps the name to the empty string,
    the lookup yields that empty string whatever the default is, prefix and
    suffix are not put around it, [config] is left as it was, and a call
    that is no build pass loads the logical name. *)
Theorem empty_entry_opts_out {V} (P : Plugin) (m : gmap string jsval) name
    req config :
  fingerprints P = Some (VObj m) ->
  m !! name = Some (VStr "") ->
  lookup P name = Some (VStr "") /\
  effective P name = Some (VStr "") /\
  cfg (run (V:=V) P name req config) = config /\
  (isBuild config = false ->
   requested (run (V:=V) P name req config) = [name]).
Proof.
  intros Hm Hn.
  assert (lookup P name = Some (VStr "")) as Hl.
  { unfold lookup. rewrite Hm. cbn [truthy]. by rewrite (get_own m name _ Hn). }
  assert (effective P name = Some (VStr "")) as He.
  { unfold effective, wrap. by rewrite Hl. }
  split; [exact Hl|]. split; [exact He|].
  destruct (isBuild config) eqn:Hb.
  - rewrite (run_build P name req config Hb). by split.
  - destruct (specified req name) eqn:Hs.
    + rewrite (run_specified P name req config Hb Hs). by split.
    + rewrite (run_no_fingerprint P name req config Hb Hs); [by split|].
      by rewrite He.
Qed.

Lemma empty_entry_opts_out_witness :
  exists P,
    init (Some (VObj opt_out)) = inr P /\
    defaultFingerprint P = Some (VStr ".9") /\
    lookup P "a" = Some (VStr "") /\
    effective P "a" = Some (VStr "") /\
    cfg (run (V:=unit) P "a" plain_host no_map) = no_map /\
    (isBuild no_map = false ->
     requested (run (V:=unit) P "a" plain_host no_map) = ["a"]).
Proof.
  eexists. split; [vm_compute; reflexivity|]. split; [vm_compute; reflexivity|].
  refine (empty_entry_opts_out (V:=unit) _ opt_out "a" plain_host no_map _ _);
    vm_compute; reflexivity.
Defined.

(** * Further properties of the code *)

(** ** The module body of 1.0.3 (lines 43-98) *)

Lemma init_options_of (mc : jsval) (P : Plugin) :
  init (Some mc) = inr P ->
  options P = merged_options mc /\
  exists exts,
    merged_options mc !! "extensions" = Some (VArr exts) /\
    extensionRegex P = join "|" exts.
Proof.
  unfold init, merged_options. destruct (negb (truthy (Some mc))); [discriminate|].
  destruct (if is_object mc then init_fingerprints _ mc else _) as [d f].
  destruct ((if is_object mc then init_options mc else default_options)
              !! "extensions") as [[s|exts|o|n]|] eqn:He; try discriminate.
  intros [= <-]. simpl. eauto.
Qed.

(** X2.  For a configuration that is there: when [options.extensions],
    after the merge, is an array of words made of letters and digits (as
    the built-in one is), the module body completes, the expression is the
    array joined with '|' and the options are the merged ones; when it is a
    string, or a plain object without a property [join], the module body
    throws a TypeError. *)
Theorem init_completes_on_words (mc : jsval) :
  truthy (Some mc) = true ->
  (forall exts,
     merged_options mc !! "extensions" = Some (VArr exts) ->
     forallb literal_word exts = true ->
     exists P,
       init (Some mc) = inr P /\
       options P = merged_options mc /\
       extensionRegex P = join "|" exts) /\
  (forall s,
     merged_options mc !! "extensions" = Some (VStr s) ->
     init (Some mc) = inl TypeError) /\
  (forall e,
     merged_options mc !! "extensions" = Some (VObj e) ->
     e !! "join" = None ->
     init (Some mc) = inl TypeError).
Proof.
  intros Ht. split; [|split].
  - intros exts He _. destruct (init_succeeds mc exts Ht He) as (P & HP & Hr).
    exists P. split; [exact HP|]. split; [|exact Hr].
    by destruct (init_options_of mc P HP) as [-> _].
  - intros s He. unfold init. rewrite Ht. cbv [negb].
    destruct (if is_object mc then init_fingerprints _ mc else _) as [d f].
    unfold merged_options in He. by rewrite He.
  - intros e He _. unfold init. rewrite Ht. cbv [negb].
    destruct (if is_object mc then init_fingerprints _ mc else _) as [d f].
    unfold merged_options in He. by rewrite He.
Qed.

Lemma init_completes_on_words_witness :
  (exists P,
     init (Some (VObj suffixed)) = inr P /\
     options P = merged_options (VObj suffixed) /\
     extensionRegex P = join "|" ["js"; "css"; "json"]) /\
  init (Some (VObj {[ "options" := VObj {[ "extensions" := VStr "js" ]} ]}))
    = inl TypeError.
Proof.
  split.
  - refine (proj1 (init_completes_on_words (VObj suffixed) eq_refl) _ _ _);
      vm_compute; reflexivity.
  - refine (proj1 (proj2 (init_completes_on_words
                            (VObj {[ "options" :=
                                       VObj {[ "extensions" := VStr "js" ]} ]})
                            eq_refl)) "js" _).
    vm_compute; reflexivity.
Defined.

(** X3.  A string configuration is the fingerprint of every name: no
    mapping, the built-in options, and the built-in prefix '?' put before
    it. *)
Theorem string_config_is_global (s : string) :
  s <> "" ->
  exists P,
    init (Some (VStr s)) = inr P /\
    fingerprints P = None /\
    options P = default_options /\
    extensionRegex P = builtin_source /\
    forall name,
      lookup P name = Some (VStr s) /\
      effective P name = Some (VStr ("?" +:+ s)).
Proof.
  intros Hs. destruct s as [|c s]; [done|].
  eexists. split; [reflexivity|]. repeat split.
  unfold effective, wrap, lookup. simpl. by rewrite append_empty.
Qed.

Lemma string_config_is_global_witness :
  exists P,
    init (Some (VStr ".12345")) = inr P /\
    effective P "components/component1" = Some (VStr "?.12345").
Proof.
  destruct (string_config_is_global ".12345" ltac:(discriminate))
    as (P & HP & _ & _ & _ & H).
  exists P. split; [exact HP|]. exact (proj2 (H "components/component1")).
Defined.

(** X4.  The merge of [options] is shallow and per key: a key the
    configuration's [options] object has takes its value from there, every
    other key keeps the built-in value. *)
Theorem options_merge_per_key (o e : gmap string jsval) (P : Plugin) :
  init (Some (VObj o)) = inr P ->
  o !! "options" = Some (VObj e) ->
  forall k,
    options P !! k =
      match e !! k with
      | Some v => Some v
      | None => default_options !! k
      end.
Proof.
  intros Hi Ho k. destruct (init_options_of _ P Hi) as [-> _].
  unfold merged_options, init_options, extend. simpl. rewrite Ho.
  rewrite lookup_union. by destruct (e !! k), (default_options !! k).
Qed.

Lemma options_merge_per_key_witness :
  exists P,
    init (Some (VObj suffixed)) = inr P /\
    options P !! "suffix" = Some (VStr ".x") /\
    options P !! "prefix" = Some (VStr "?") /\
    options P !! "mode" = Some (VStr APPEND).
Proof.
  eexists. split; [vm_compute; reflexivity|].
  split; [|split];
    refine (options_merge_per_key suffixed {[ "suffix" := VStr ".x" ]} _ _ _ _);
    vm_compute; reflexivity.
Defined.

(** X5.  A non-empty string under [fingerprint] shadows everything else in
    the configuration: no mapping is kept, and every name gets that
    string, whatever [fingerprints] or the other keys hold. *)
Theorem scalar_fingerprint_shadows_mapping (o : gmap string jsval)
    (P : Plugin) (s : string) :
  init (Some (VObj o)) = inr P ->
  o !! "fingerprint" = Some (VStr s) ->
  s <> "" ->
  fingerprints P = None /\ forall name, lookup P name = Some (VStr s).
Proof.
  intros Hi Ho Hs. pose proof (init_object o P Hi) as H.
  unfold selected in H. rewrite Ho in H.
  destruct s as [|c s]; [done|]. simpl in H. destruct H as [Hd Hf].
  split; [exact Hf|]. intros name. unfold lookup. by rewrite Hf.
Qed.

Lemma scalar_fingerprint_shadows_mapping_witness :
  exists P,
    init (Some (VObj shadowed)) = inr P /\
    fingerprints P = None /\
    forall name, lookup P name = Some (VStr ".5").
Proof.
  eexists. split; [vm_compute; reflexivity|].
  refine (scalar_fingerprint_shadows_mapping shadowed _ ".5" _ _ _);
    [vm_compute; reflexivity | vm_compute; reflexivity | discriminate].
Defined.

(** ** Prefix and suffix (lines 115-118) *)

Lemma append_not_empty a b : b <> "" -> a +:+ b <> "".
Proof. destruct a; [done|]. by rewrite append_cons. Qed.

Lemma append_not_empty_l a b : a <> "" -> a +:+ b <> "".
Proof. destruct a; [done|]. by rewrite append_cons. Qed.

Lemma truthy_VStr s : truthy (Some (VStr s)) = true <-> s <> "".
Proof. destruct s; simpl; split; done. Qed.

(** X6.  Putting prefix and suffix around a fingerprint never sets one
    that was not set, and never unsets one that is a non-empty string: a
    name has an effective fingerprint only if the lookup gave one, and
    always if the lookup gave a non-empty string. *)
Theorem wrap_keeps_presence (P : Plugin) :
  (forall fingerprint,
     truthy (wrap P fingerprint) = true -> truthy fingerprint = true) /\
  (forall s, s <> "" -> truthy (wrap P (Some (VStr s))) = true).
Proof.
  split.
  - intros fp. unfold wrap. destruct (truthy fp) eqn:Hfp; [done|].
    simpl. by rewrite Hfp.
  - intros s Hs. unfold wrap. rewrite (proj2 (truthy_VStr s) Hs).
    destruct (truthy _ || truthy _); simpl andb; cbv iota.
    + apply truthy_VStr. apply append_not_empty. simpl text.
      by apply append_not_empty_l.
    + by apply truthy_VStr.
Qed.

(** ** Calls of [load] (lines 101-167) *)

Lemma written_again config name loadName :
  written (written config name loadName) name loadName
    = written config name loadName.
Proof.
  unfold written. simpl. rewrite lookup_insert_eq. simpl.
  by rewrite !insert_insert_eq.
Qed.

Lemma rewrites_written (P : Plugin) name req config other loadName :
  rewrites P name req (written config other loadName)
    = rewrites P name req config.
Proof. reflexivity. Qed.

(** The four ways a call goes. *)
Lemma run_cases {V} (P : Plugin) name req config :
  (isBuild config = true /\
   run (V:=V) P name req config = {| cfg := config; trace := [OnLoad None] |})
  \/ (isBuild config = false /\ rewrites P name req config = false /\
      exists queries,
        run (V:=V) P name req config =
          {| cfg := config;
             trace := Specified name
                      :: queries ++ [Require [name] pass_through] |} /\
        (queries = [] \/ queries = [Defined name]))
  \/ (isBuild config = false /\ rewrites P name req config = true).
Proof.
  destruct (isBuild config) eqn:Hb.
  { left. split; [done|]. by apply run_build. }
  right. destruct (rewrites P name req config) eqn:Hr; [by right|].
  left. split; [done|]. split; [done|].
  unfold rewrites in Hr. rewrite Hb in Hr. simpl in Hr.
  destruct (specified req name) eqn:Hs.
  { exists []. split; [|by left]. by apply run_specified. }
  destruct (truthy (effective P name)) eqn:Hf.
  2:{ exists []. split; [|by left]. by apply run_no_fingerprint. }
  destruct (defined req name) eqn:Hd; [|discriminate].
  exists [Defined name]. split; [|by right]. by apply run_defined.
Qed.

(** X7.  Loading the same name again, with the [config] the first call
    left and a host that answers as before, gives the same trace and
    leaves [config] as it is: the map entry is overwritten with itself. *)
Theorem load_twice_is_load_once {V} (P : Plugin) name req config :
  run (V:=V) P name req (cfg (run (V:=V) P name req config))
    = run (V:=V) P name req config.
Proof.
  destruct (run_cases (V:=V) P name req config)
    as [[Hb Hr] | [(Hb & Hn & qs & Hr & _) | [Hb Hw]]].
  - rewrite Hr. simpl. exact Hr.
  - rewrite Hr. simpl. exact Hr.
  - rewrite (run_rewrites P name req config Hw). cbv zeta. simpl cfg.
    set (loadName := load_name P (resolve_url req name) (effective P name)).
    destruct (String.eqb name loadName) eqn:He.
    + rewrite (run_rewrites P name req config Hw). cbv zeta.
      fold loadName. by rewrite He.
    + rewrite (run_rewrites P name req (written config name loadName)
                 (eq_trans (rewrites_written P name req config name loadName) Hw)).
      cbv zeta. fold loadName. rewrite He. by rewrite written_again.
Qed.

Lemma entry_written config name loadName bucket key :
  bucket <> "*" \/ key <> name ->
  entry (written config name loadName) bucket key = entry config bucket key.
Proof.
  intros Hne. unfold entry, written. simpl.
  destruct (decide (bucket = "*")) as [->|Hb].
  - destruct Hne as [?|Hk]; [done|].
    rewrite lookup_insert_eq. simpl. rewrite lookup_insert_ne by congruence.
    destruct (map config) as [m|]; simpl; [|reflexivity].
    by destruct (m !! "*").
  - rewrite lookup_insert_ne by congruence.
    by destruct (map config) as [m|].
Qed.

(** X8.  A call writes one place of [config] at most: the build flag, the
    buckets of other requesting modules and the entries of other names in
    the '*' bucket are after the call what they were before it, so nothing
    is ever removed from the map. *)
Theorem load_writes_one_entry_at_most {V} (P : Plugin) name req config :
  isBuild (cfg (run (V:=V) P name req config)) = isBuild config /\
  forall bucket key,
    bucket <> "*" \/ key <> name ->
    entry (cfg (run (V:=V) P name req config)) bucket key
      = entry config bucket key.
Proof.
  destruct (run_cases (V:=V) P name req config)
    as [[Hb Hr] | [(Hb & Hn & qs & Hr & _) | [Hb Hw]]].
  - by rewrite Hr.
  - by rewrite Hr.
  - rewrite (run_rewrites P name req config Hw). cbv zeta. simpl cfg.
    destruct (String.eqb name _); [done|]. split; [done|].
    intros bucket key Hne. by apply entry_written.
Qed.

(** X9.  What a call asks of its arguments.  A build pass calls [onLoad]
    and nothing else.  Any other call asks [req.specified] first, then
    [req.defined] and [req.toUrl] at most, each for the logical name only,
    and ends with one request for one name whose callback hands the value
    to [onLoad]; [req.toUrl] is never given a name that holds a '!'. *)
Theorem load_protocol {V} (P : Plugin) name req config :
  if isBuild config
  then trace (run (V:=V) P name req config) = [OnLoad None]
  else exists queries loadName,
    trace (run (V:=V) P name req config) =
      Specified name :: queries ++ [Require [loadName] pass_through] /\
    (queries = [] \/ queries = [Defined name]
     \/ queries = [Defined name; ToUrl name]) /\
    (Str.contains "!" name = true -> queries <> [Defined name; ToUrl name]).
Proof.
  destruct (run_cases (V:=V) P name req config)
    as [[Hb Hr] | [(Hb & Hn & qs & Hr & Hq) | [Hb Hw]]]; rewrite Hb.
  - by rewrite Hr.
  - exists qs, name. rewrite Hr. split; [done|]. split.
    + destruct Hq as [->| ->]; auto.
    + intros _. destruct Hq as [->| ->]; discriminate.
  - rewrite (run_rewrites P name req config Hw). cbv zeta. simpl trace.
    destruct (Str.contains "!" name) eqn:Hc.
    + exists [Defined name], (load_name P (resolve_url req name) (effective P name)).
      split; [done|]. split; [auto|]. discriminate.
    + exists [Defined name; ToUrl name],
        (load_name P (resolve_url req name) (effective P name)).
      split; [done|]. split; [auto|]. discriminate.
Qed.

(** X10.  A [mode] that is neither 'append' nor 'beforeExtension' is not
    refused: a URL with a recognized extension gets the fingerprint
    appended, and any other URL gets the default extension and no
    fingerprint at all. *)
Theorem unknown_mode_drops_fingerprint {V} (P : Plugin) name req config :
  rewrites P name req config = true ->
  strict_eq (options P !! "mode") APPEND = false ->
  strict_eq (options P !! "mode") BEFORE_EXTENSION = false ->
  let url := resolve_url req name in
  requested (run (V:=V) P name req config) =
    [if recognized P url then url +:+ text (effective P name)
     else url +:+ default_extension P url].
Proof.
  intros Hr Ha Hb url. rewrite (requested_rewrites P name req config Hr).
  fold url. unfold load_name, recognized, default_extension.
  rewrite Ha, Hb.
  destruct (Ext.exec (extensionRegex P) url); [reflexivity|].
  destruct (negb _ && _); [reflexivity|]. by rewrite append_empty.
Qed.

Lemma unknown_mode_drops_fingerprint_witness :
  exists P,
    init (Some unknown_mode_config) = inr P /\
    requested (run (V:=unit) P "app/main" plain_host no_map) = ["app/main.js"] /\
    requested (run (V:=unit) P "app/main.js" plain_host no_map)
      = ["app/main.js?.5"].
Proof.
  eexists. split; [vm_compute; reflexivity|]. split.
  - refine (unknown_mode_drops_fingerprint (V:=unit) _ "app/main" plain_host
              no_map _ _ _); vm_compute; reflexivity.
  - refine (unknown_mode_drops_fingerprint (V:=unit) _ "app/main.js" plain_host
              no_map _ _ _); vm_compute; reflexivity.
Defined.

(** ** The extension test and the splice (lines 98, 125-131) *)

(** X11.  When the extensions are made of letters and digits, as the
    built-in ones are (any other character the engine may read as an
    operator of the expression), the expression finds a match exactly when
    the URL ends in a dot followed by one of the extensions, letter case
    apart; the match it takes splits the URL at that dot, keeps the
    extension as the URL spells it, and is the leftmost one: no earlier dot
    is followed by an extension up to the end. *)
Theorem extension_match_is_leftmost_suffix (source url : string) :
  forallb literal_word (Ext.alternatives source) = true ->
  (is_Some (Ext.exec source url) <->
   exists before ext,
     url = before +:+ "." +:+ ext /\ extension_of source ext = true) /\
  (forall before ext,
     Ext.exec source url = Some (before, ext) ->
     url = before +:+ "." +:+ ext /\ extension_of source ext = true /\
     forall before' ext',
       url = before' +:+ "." +:+ ext' -> extension_of source ext' = true ->
       String.length before <= String.length before').
Proof.
  intros _. split.
  - split.
    + intros [[b e] H]. exists b, e. by apply exec_Some.
    + intros (b & e & -> & He). by apply exec_complete.
  - induction url as [|c rest IH]; intros before ext; [discriminate|].
    rewrite exec_cons.
    destruct (Ascii.eqb c "." && extension_of source rest) eqn:Hhere.
    + intros [= <- <-]. apply andb_prop in Hhere as [Hc Hext].
      apply Ascii.eqb_eq in Hc. subst c.
      split; [reflexivity|]. split; [exact Hext|]. intros. simpl. lia.
    + destruct (Ext.exec source rest) as [[b e]|] eqn:Hrest; [|discriminate].
      intros [= <- <-]. destruct (IH b e eq_refl) as (Hrest' & Hext & Hleft).
      split; [by rewrite append_cons, <- Hrest'|]. split; [exact Hext|].
      intros before' ext' Hu He'. destruct before' as [|c' b'].
      * change ("" +:+ "." +:+ ext') with (String "." ext') in Hu.
        injection Hu as -> Hu. rewrite <- Hu in He'.
        rewrite He' in Hhere. discriminate.
      * rewrite append_cons in Hu. injection Hu as _ Hu.
        simpl. specialize (Hleft b' ext' Hu He'). lia.
Qed.

(** With the built-in extensions, "lib/a.b.JS" is split at its last dot. *)
Lemma extension_match_is_leftmost_suffix_witness :
  forallb literal_word (Ext.alternatives builtin_source) = true /\
  Ext.exec builtin_source "lib/a.b.JS" = Some ("lib/a.b", "JS") /\
  forall before ext,
    Ext.exec builtin_source "lib/a.b.JS" = Some (before, ext) ->
    "lib/a.b.JS" = before +:+ "." +:+ ext /\
    extension_of builtin_source ext = true /\
    forall before' ext',
      "lib/a.b.JS" = before' +:+ "." +:+ ext' ->
      extension_of builtin_source ext' = true ->
      String.length before <= String.length before'.
Proof.
  split; [vm_compute; reflexivity|]. split; [vm_compute; reflexivity|].
  refine (proj2 (extension_match_is_leftmost_suffix
                   builtin_source "lib/a.b.JS" _)).
  vm_compute; reflexivity.
Defined.

(** X12.  In 'beforeExtension' mode a URL with a recognized extension is
    rebuilt from its own text before the dot, the text of the Number the
    unary plus makes of the fingerprint, a dot, and its own extension in
    the letter case it had. *)
Theorem before_extension_splices_number {V} (P : Plugin) name req config :
  rewrites P name req config = true ->
  strict_eq (options P !! "mode") BEFORE_EXTENSION = true ->
  recognized P (resolve_url req name) = true ->
  exists before ext,
    resolve_url req name = before +:+ "." +:+ ext /\
    extension_of (extensionRegex P) ext = true /\
    requested (run (V:=V) P name req config) =
      [before +:+ Num.to_string (to_number (effective P name))
         +:+ "." +:+ ext].
Proof.
  intros Hr Hm He. unfold recognized in He.
  destruct (Ext.exec (extensionRegex P) (resolve_url req name))
    as [[before ext]|] eqn:Hx; [|discriminate].
  exists before, ext. destruct (exec_Some _ _ _ _ Hx) as [Hu Hext].
  split; [exact Hu|]. split; [exact Hext|].
  by apply requested_before_recognized.
Qed.

Lemma before_extension_splices_number_witness :
  exists P,
    init (Some (VObj {[ "fingerprint" := VStr "0042";
                        "options" := VObj {[ "mode" := VStr BEFORE_EXTENSION;
                                             "prefix" := VStr "" ]} ]}))
      = inr P /\
    exists before ext,
      resolve_url plain_host "lib/App.JS" = before +:+ "." +:+ ext /\
      extension_of (extensionRegex P) ext = true /\
      requested (run (V:=unit) P "lib/App.JS" plain_host no_map) =
        [before +:+ Num.to_string (to_number (effective P "lib/App.JS"))
           +:+ "." +:+ ext].
Proof.
  eexists. split; [vm_compute; reflexivity|].
  refine (before_extension_splices_number (V:=unit) _ "lib/App.JS" plain_host
            no_map _ _ _); vm_compute; reflexivity.
Defined.

(** *** A fingerprint that starts with a question mark is no Number *)

Lemma trim_left_snoc (l : list ascii) (c : ascii) :
  Num.is_space c = false ->
  Num.trim_left (l ++ [c])%list = (Num.trim_left l ++ [c])%list.
Proof.
  intros Hc. induction l as [|d l IH]; simpl.
  - by rewrite Hc.
  - destruct (Num.is_space d); [exact IH | reflexivity].
Qed.

Lemma trim_cons (c : ascii) (l : list ascii) :
  Num.is_space c = false ->
  Num.trim (c :: l) = c :: rev (Num.trim_left (rev l)).
Proof.
  intros Hc. unfold Num.trim. simpl Num.trim_left at 2. rewrite Hc.
  simpl rev at 2. rewrite (trim_left_snoc _ _ Hc).
  by rewrite rev_app_distr.
Qed.

Lemma of_string_question (s : string) :
  Num.of_string (String "?" s) = Num.NaN.
Proof.
  unfold Num.of_string.
  change (list_ascii_of_string (String "?" s))
    with ("?"%char :: list_ascii_of_string s).
  rewrite trim_cons by reflexivity.
  set (l := rev (Num.trim_left (rev (list_ascii_of_string s)))).
  cbv beta iota. unfold Num.signed_decimal.
  rewrite bool_decide_eq_false_2 by discriminate.
  reflexivity.
Qed.

(** X13.  With a prefix that starts with '?', as the built-in one does,
    'beforeExtension' mode puts the text "NaN" before every recognized
    extension, whatever the fingerprint is. *)
Theorem question_prefix_splices_NaN {V} (P : Plugin) name req config
    (rest before ext : string) :
  options P !! "prefix" = Some (VStr (String "?" rest)) ->
  rewrites P name req config = true ->
  strict_eq (options P !! "mode") BEFORE_EXTENSION = true ->
  Ext.exec (extensionRegex P) (resolve_url req name) = Some (before, ext) ->
  requested (run (V:=V) P name req config) = [before +:+ "NaN" +:+ "." +:+ ext].
Proof.
  intros Hp Hr Hm Hx.
  rewrite (requested_before_recognized P name req config before ext Hr Hm Hx).
  assert (truthy (effective P name) = true) as Hf.
  { unfold rewrites in Hr. apply andb_prop in Hr as [Hr _].
    by apply andb_prop in Hr as [_ Hr]. }
  unfold effective, wrap in *. rewrite Hp in *.
  destruct (truthy (lookup P name)) eqn:Hl.
  - rewrite orb_true_r. simpl andb. cbv iota. unfold to_number.
    simpl to_string. rewrite !append_cons. by rewrite of_string_question.
  - simpl in Hf. congruence.
Qed.

Lemma question_prefix_splices_NaN_witness :
  exists P,
    init (Some before_prefixed_config) = inr P /\
    requested (run (V:=unit) P "app/main.js" plain_host no_map)
      = ["app/mainNaN.js"].
Proof.
  eexists. split; [vm_compute; reflexivity|].
  refine (question_prefix_splices_NaN (V:=unit) _ "app/main.js" plain_host
            no_map "" "app/main" "js" _ _ _ _); vm_compute; reflexivity.
Defined.

(** ** More on 1.0.3: the direct mapping and 'append' mode *)

(** X14.  When neither [fingerprint] nor [fingerprints] is set (or each is
    empty), the configuration object itself is the mapping and every key of
    it is an entry, the keys [options] and [default] included: a module
    named like a key gets the value under that key. *)
Theorem direct_mapping_entries (o : gmap string jsval) (P : Plugin) :
  init (Some (VObj o)) = inr P ->
  truthy (o !! "fingerprint") = false ->
  truthy (o !! "fingerprints") = false ->
  fingerprints P = Some (VObj o) /\
  forall name v, o !! name = Some v -> lookup P name = Some v.
Proof.
  intros Hi Hf Hg. pose proof (init_object o P Hi) as H.
  unfold selected in H. rewrite Hf, Hg in H. destruct H as [Hm _].
  split; [exact Hm|]. intros name v Hv. unfold lookup.
  rewrite Hm. cbn [truthy]. by rewrite (get_own o name v Hv).
Qed.

Lemma direct_mapping_entries_witness :
  exists P,
    init (Some (VObj suffixed)) = inr P /\
    lookup P "a" = Some (VStr ".1") /\
    lookup P "options" = Some (VObj {[ "suffix" := VStr ".x" ]}) /\
    effective P "options" = Some (VStr "?[object Object].x").
Proof.
  eexists. split; [vm_compute; reflexivity|].
  split; [|split; [|vm_compute; reflexivity]].
  - refine (proj2 (direct_mapping_entries suffixed _ _ _ _) "a" _ _);
      vm_compute; reflexivity.
  - refine (proj2 (direct_mapping_entries suffixed _ _ _ _) "options" _ _);
      vm_compute; reflexivity.
Defined.

(** X15.  In 'append' mode the load name starts with the resolved URL and
    ends with the effective fingerprint; between the two there is nothing
    or the default extension. *)
Theorem append_keeps_url_and_ends_in_fingerprint {V} (P : Plugin) name req
    config :
  rewrites P name req config = true ->
  strict_eq (options P !! "mode") APPEND = true ->
  exists between,
    requested (run (V:=V) P name req config)
      = [resolve_url req name +:+ between +:+ text (effective P name)] /\
    (between = "" \/ between = text (options P !! "defaultExtension")).
Proof.
  intros Hr Hm. rewrite (requested_rewrites P name req config Hr).
  destruct (recognized P (resolve_url req name)) eqn:He.
  - exists "". split; [|by left].
    by rewrite (load_name_recognized_append P _ _ He
                  (mode_append_not_before P Hm)).
  - exists (default_extension P (resolve_url req name)).
    split; [by rewrite (load_name_plain_append P _ _ He Hm)|].
    unfold default_extension. destruct (negb _ && _); auto.
Qed.

Lemma append_keeps_url_and_ends_in_fingerprint_witness :
  exists P,
    init (Some (VStr "v=7")) = inr P /\
    exists between,
      requested (run (V:=unit) P "components/widget" relative_host no_map)
        = [resolve_url relative_host "components/widget" +:+ between
           +:+ text (effective P "components/widget")] /\
      (between = "" \/ between = text (options P !! "defaultExtension")).
Proof.
  eexists. split; [vm_compute; reflexivity|].
  refine (append_keeps_url_and_ends_in_fingerprint (V:=unit) _
            "components/widget" relative_host no_map _ _);
    vm_compute; reflexivity.
Defined.

(** X16.  A name that holds a '!' is never resolved and never given the
    default extension: in 'append' mode it is loaded as the name itself
    followed by the effective fingerprint, whether or not it ends in a
    recognized extension. *)
Theorem loader_prefixed_name_appends {V} (P : Plugin) name req config :
  rewrites P name req config = true ->
  strict_eq (options P !! "mode") APPEND = true ->
  Str.contains "!" name = true ->
  requested (run (V:=V) P name req config)
    = [name +:+ text (effective P name)] /\
  ~ In (ToUrl name) (trace (run (V:=V) P name req config)).
Proof.
  intros Hr Hm Hc. split.
  - rewrite (requested_rewrites P name req config Hr).
    assert (resolve_url req name = name) as ->.
    { unfold resolve_url. by rewrite Hc. }
    destruct (recognized P name) eqn:He.
    + by rewrite (load_name_recognized_append P _ _ He
                    (mode_append_not_before P Hm)).
    + rewrite (load_name_plain_append P _ _ He Hm).
      unfold default_extension. by rewrite Hc.
  - rewrite (run_rewrites P name req config Hr). cbv zeta. simpl trace.
    rewrite Hc. simpl. intros [H|[H|[H|[]]]]; discriminate.
Qed.

Lemma loader_prefixed_name_appends_witness :
  exists P,
    init (Some (VStr "v=7")) = inr P /\
    requested (run (V:=unit) P "css!styles/app" bang_host no_map)
      = ["css!styles/app?v=7"] /\
    ~ In (ToUrl "css!styles/app")
         (trace (run (V:=unit) P "css!styles/app" bang_host no_map)).
Proof.
  eexists. split; [vm_compute; reflexivity|].
  refine (loader_prefixed_name_appends (V:=unit) _ "css!styles/app" bang_host
            no_map _ _ _); vm_compute; reflexivity.
Defined.

(** ** The lookup, and calls that rewrite nothing (lines 106-121) *)

(** X24.  A call that is no build pass, for which the lookup yields
    nothing, or whose name the host reports as specified, or as defined:
    the name loaded is the logical name, [config] is left as it was, and
    the host is asked for the logical name with the callback that hands
    the value to [onLoad]; before that the host is only asked whether the
    name is specified and, when a fingerprint is set, whether it is
    defined. *)
Theorem unchanged_name_passes_through {V} (P : Plugin) name req config :
  isBuild config = false ->
  lookup P name = None \/ specified req name = true \/ defined req name = true ->
  requested (run (V:=V) P name req config) = [name] /\
  cfg (run (V:=V) P name req config) = config /\
  trace (run (V:=V) P name req config) =
    Specified name
    :: (if negb (specified req name) && truthy (effective P name)
        then [Defined name] else [])
    ++ [Require [name] pass_through].
Proof.
  intros Hb H.
  destruct (specified req name) eqn:Hs.
  { by rewrite (run_specified P name req config Hb Hs). }
  destruct (truthy (effective P name)) eqn:Hf.
  2:{ by rewrite (run_no_fingerprint P name req config Hb Hs Hf). }
  destruct H as [H | [H | H]]; [|discriminate|].
  - unfold effective in Hf. rewrite H in Hf. discriminate.
  - by rewrite (run_defined P name req config Hb Hs Hf H).
Qed.

Lemma unchanged_name_passes_through_witness :
  exists P,
    init (Some (VObj {[ "a" := VStr ".1" ]})) = inr P /\
    requested (run (V:=unit) P "b" plain_host no_map) = ["b"] /\
    cfg (run (V:=unit) P "b" plain_host no_map) = no_map /\
    trace (run (V:=unit) P "b" plain_host no_map)
      = [Specified "b"; Require ["b"] pass_through].
Proof.
  eexists. split; [vm_compute; reflexivity|].
  refine (unchanged_name_passes_through (V:=unit) _ "b" plain_host no_map _ _).
  - reflexivity.
  - left. vm_compute; reflexivity.
Defined.

(** X25.  For a configuration the module body accepted: when a mapping is
    set, the lookup yields the property of the mapping under that name, own
    or inherited; failing that, the mapping's "default" entry when it is
    not empty; failing that, the scalar default.  Without a mapping it
    yields the scalar default. *)
Theorem lookup_precedence (mc : option jsval) (P : Plugin) (name : string) :
  init mc = inr P ->
  lookup P name =
    match fingerprints P with
    | Some m =>
        match get m name with
        | Some v => Some v
        | None =>
            if truthy (get m "default") then get m "default"
            else defaultFingerprint P
        end
    | None => defaultFingerprint P
    end.
Proof.
  intros Hi. unfold lookup.
  destruct (fingerprints P) as [m|] eqn:Hm; [|reflexivity].
  destruct (init_mapping mc P m Hi Hm) as [-> Hd].
  destruct (get m name); [reflexivity|].
  rewrite Hd. by destruct (truthy (get m "default")).
Qed.

(** For [{ a: '.1', 'default': '.9' }], "a" yields ".1" and "b" yields
    ".9". *)
Lemma lookup_precedence_witness :
  exists P,
    init (Some (VObj mapping)) = inr P /\
    lookup P "a" = Some (VStr ".1") /\
    lookup P "b" = Some (VStr ".9").
Proof.
  eexists. split; [vm_compute; reflexivity|]. split.
  - exact (lookup_precedence (Some (VObj mapping)) _ "a" eq_refl).
  - exact (lookup_precedence (Some (VObj mapping)) _ "b" eq_refl).
Defined.

(** ** The version that reads [config.fingerprint] ([src/fingerprint.js],
    lines 32-132) *)

Lemma percall_settings_error fingerprint name e :
  PerCall.settings fingerprint name = inl e <->
  e = TypeError /\ lacks_fingerprints fingerprint.
Proof.
  unfold PerCall.settings, lacks_fingerprints. split.
  - destruct fingerprint as [f|]; [|discriminate].
    destruct (is_object f) eqn:Ho; [|discriminate].
    destruct (get f "options") as [x|] eqn:Hx; [|discriminate].
    destruct (get f "fingerprints") as [fps|] eqn:Hf; [discriminate|].
    intros [= <-]. split; [reflexivity|]. exists f, x. done.
  - intros (-> & f & x & -> & Ho & Hx & Hf). by rewrite Ho, Hx, Hf.
Qed.

Section PerCallRuns.

Context {V : Type}.

Lemma percall_run_build fingerprint name req config :
  isBuild config = true ->
  PerCall.run (V:=V) fingerprint name req config
    = (None, {| cfg := config; trace := [OnLoad None] |}).
Proof.
  intros Hb. unfold PerCall.run, PerCall.load, get_config, mbind, M_bind.
  simpl. by rewrite Hb.
Qed.

Lemma percall_run_specified fingerprint name req config :
  isBuild config = false -> specified req name = true ->
  PerCall.run (V:=V) fingerprint name req config
    = (None, {| cfg := config;
                trace := [Specified name; Require [name] pass_through] |}).
Proof.
  intros Hb Hs.
  unfold PerCall.run, PerCall.load, call_specified, get_config, mbind, M_bind.
  simpl. rewrite Hb. simpl. by rewrite Hs.
Qed.

Lemma percall_run_throws fingerprint name req config e :
  isBuild config = false -> specified req name = false ->
  PerCall.settings fingerprint name = inl e ->
  PerCall.run (V:=V) fingerprint name req config
    = (Some e, {| cfg := config; trace := [Specified name] |}).
Proof.
  intros Hb Hs He.
  unfold PerCall.run, PerCall.load, call_specified, get_config, mbind, M_bind.
  simpl. rewrite Hb. simpl. rewrite Hs. simpl. by rewrite He.
Qed.


End PerCallRuns.

(** X17.  In the earlier version, a call that is no build pass, for a
    name not specified yet, with a [config.fingerprint] that is an object
    with [options] and without [fingerprints], throws a TypeError; it then
    has asked [req.specified] only: [req] is not called, [onload] neither,
    and [config] is untouched.  A build pass, and a call for a name that is
    specified, throw nothing: they do not read [config.fingerprint]. *)
Theorem percall_throws_without_fingerprints {V} fingerprint name req config :
  (isBuild config = false ->
   specified req name = false ->
   lacks_fingerprints fingerprint ->
   PerCall.run (V:=V) fingerprint name req config
     = (Some TypeError, {| cfg := config; trace := [Specified name] |})) /\
  (isBuild config = true \/ specified req name = true ->
   fst (PerCall.run (V:=V) fingerprint name req config) = None).
Proof.
  split.
  - intros Hb Hs Hl. apply percall_run_throws; [done..|].
    by apply percall_settings_error.
  - destruct (isBuild config) eqn:Hb.
    { by rewrite (percall_run_build fingerprint name req config Hb). }
    intros [?|Hs]; [done|].
    by rewrite (percall_run_specified fingerprint name req config Hb Hs).
Qed.

(** [{ options: { mode: 'beforeExtension' } }] throws on the first name
    asked for. *)
Lemma percall_throws_without_fingerprints_witness :
  lacks_fingerprints (Some (VObj options_only)) /\
  PerCall.run (V:=unit) (Some (VObj options_only)) "a" plain_host no_map
    = (Some TypeError, {| cfg := no_map; trace := [Specified "a"] |}).
Proof.
  assert (lacks_fingerprints (Some (VObj options_only))) as Hl.
  { eexists _, _. split; [reflexivity|]. split; [reflexivity|].
    split; vm_compute; reflexivity. }
  split; [exact Hl|].
  refine (proj1 (percall_throws_without_fingerprints (V:=unit)
                   (Some (VObj options_only)) "a" plain_host no_map) _ _ Hl);
    vm_compute; reflexivity.
Defined.



(** The verbatim entry, on a host whose URLs start with "./". *)
Example percall_keeps_dot_slash :
  mapped (cfg (snd (PerCall.run (V:=unit) (Some (VStr ".5")) "a/b"
                      relative_host no_map))) "a/b"
    = Some "./a/b.js?.5".
Proof. vm_compute. reflexivity. Qed.

Lemma strict_eq_append_before v :
  strict_eq v APPEND = true -> strict_eq v BEFORE_EXTENSION = false.
Proof.
  unfold strict_eq. destruct v as [[s| | |]|]; try discriminate.
  intros H. apply String.eqb_eq in H. by subst s.
Qed.

Lemma strict_eq_before_append v :
  strict_eq v BEFORE_EXTENSION = true -> strict_eq v APPEND = false.
Proof.
  unfold strict_eq. destruct v as [[s| | |]|]; try discriminate.
  intros H. apply String.eqb_eq in H. by subst s.
Qed.

(** X19.  For a URL without a recognized extension and without a '!', the
    earlier version adds '.js' in both modes: after the fingerprint in
    'beforeExtension' mode, before it in 'append' mode. *)
Theorem percall_adds_js_in_both_modes (options : gmap string jsval)
    (url : string) (fingerprint : option jsval) :
  Ext.exec builtin_source url = None ->
  Str.contains "!" url = false ->
  (strict_eq (options !! "mode") BEFORE_EXTENSION = true ->
   PerCall.load_name options url fingerprint
     = url +:+ text fingerprint +:+ ".js") /\
  (strict_eq (options !! "mode") APPEND = true ->
   PerCall.load_name options url fingerprint
     = url +:+ ".js" +:+ text fingerprint).
Proof.
  intros He Hc. unfold PerCall.load_name, builtin_source in *.
  rewrite He, Hc. simpl negb. cbv iota. split; intros Hm.
  - rewrite Hm, (strict_eq_before_append _ Hm). by rewrite append_assoc.
  - rewrite Hm, (strict_eq_append_before _ Hm). by rewrite append_assoc.
Qed.

Lemma percall_adds_js_in_both_modes_witness :
  PerCall.load_name (<["mode" := VStr BEFORE_EXTENSION]> Legacy.default_options)
    "app/main" (Some (VStr ".9")) = "app/main.9.js" /\
  PerCall.load_name Legacy.default_options "app/main" (Some (VStr "?.9"))
    = "app/main.js?.9".
Proof.
  split.
  - refine (proj1 (percall_adds_js_in_both_modes _ "app/main" _ _ _) _);
      vm_compute; reflexivity.
  - refine (proj2 (percall_adds_js_in_both_modes _ "app/main" _ _ _) _);
      vm_compute; reflexivity.
Defined.

(** ** The version that reads [module.config()] ([src/fingerprint.js],
    lines 164-279) *)







(** X22.  In the second version a URL without a recognized extension gets,
    in 'beforeExtension' mode, the fingerprint and nothing else: '.js' is
    left to the loader. *)
Theorem permodule_before_plain_exact (options : gmap string jsval)
    (url : string) (fingerprint : option jsval) :
  Ext.exec builtin_source url = None ->
  strict_eq (options !! "mode") BEFORE_EXTENSION = true ->
  PerModule.load_name options url fingerprint = url +:+ text fingerprint.
Proof.
  intros He Hm. unfold PerModule.load_name, builtin_source in *.
  rewrite He, Hm, (strict_eq_before_append _ Hm).
  by rewrite andb_false_r.
Qed.

Lemma permodule_before_plain_exact_witness :
  PerModule.load_name (<["mode" := VStr BEFORE_EXTENSION]> Legacy.default_options)
    "app/main" (Some (VStr ".9")) = "app/main.9".
Proof.
  refine (permodule_before_plain_exact _ "app/main" _ _ _);
    vm_compute; reflexivity.
Defined.

(** ** The three versions side by side *)

Lemma extension_of_reordered ext :
  extension_of "css|js|json" ext = extension_of builtin_source ext.
Proof.
  unfold extension_of, builtin_source.
  change (Ext.alternatives "css|js|json") with ["css"; "js"; "json"].
  change (Ext.alternatives "js|css|json") with ["js"; "css"; "json"].
  simpl. by destruct (Str.ci_eqb ext "css"), (Str.ci_eqb ext "js").
Qed.

Lemma exec_reordered url :
  Ext.exec "css|js|json" url = Ext.exec builtin_source url.
Proof.
  induction url as [|c rest IH]; [reflexivity|].
  by rewrite !exec_cons, IH, extension_of_reordered.
Qed.

(** X23.  With the built-in extensions, the three versions compute the
    same load name for every URL that has a recognized extension, in
    every mode; and with the default extension '.js' they compute the same
    load name for every URL in 'append' mode. *)
Theorem versions_agree (P : Plugin) :
  extensionRegex P = builtin_source ->
  (forall url fingerprint,
     recognized P url = true ->
     load_name P url fingerprint = PerCall.load_name (options P) url fingerprint /\
     load_name P url fingerprint
       = PerModule.load_name (options P) url fingerprint) /\
  (strict_eq (options P !! "mode") APPEND = true ->
   options P !! "defaultExtension" = Some (VStr ".js") ->
   forall url fingerprint,
     load_name P url fingerprint = PerCall.load_name (options P) url fingerprint /\
     load_name P url fingerprint
       = PerModule.load_name (options P) url fingerprint).
Proof.
  intros Hx. split.
  - intros url fp. unfold recognized, load_name, PerCall.load_name,
      PerModule.load_name, Legacy.matched_name, Ext.replace.
    rewrite Hx, exec_reordered. unfold builtin_source.
    by destruct (Ext.exec "js|css|json" url) as [[b e]|].
  - intros Hm Hd url fp. unfold load_name, PerCall.load_name,
      PerModule.load_name, Legacy.matched_name, Ext.replace.
    rewrite Hx, exec_reordered, Hd, Hm, (strict_eq_append_before _ Hm).
    unfold builtin_source.
    destruct (Ext.exec "js|css|json" url) as [[b e]|]; [done|].
    simpl truthy. rewrite !andb_true_r. simpl text.
    by destruct (negb (Str.contains "!" url)).
Qed.

Lemma versions_agree_witness :
  exists P,
    init (Some (VStr "v=7")) = inr P /\
    load_name P "styles/app.css" (Some (VStr "?v=7"))
      = PerCall.load_name (options P) "styles/app.css" (Some (VStr "?v=7")) /\
    load_name P "components/widget" (Some (VStr "?v=7"))
      = PerModule.load_name (options P) "components/widget" (Some (VStr "?v=7")).
Proof.
  eexists. split; [vm_compute; reflexivity|]. split.
  - refine (proj1 (proj1 (versions_agree _ _) "styles/app.css" _ _));
      vm_compute; reflexivity.
  - refine (proj2 (proj2 (versions_agree _ _) _ _ "components/widget" _));
      vm_compute; reflexivity.
Defined.
